(** * MK Processor: the bootstrap sequence and the update flow of [main.py]

    A shallow embedding of [src/main.py]: the import guard, [check_for_updates],
    [main], [show_update_dialog] with its nested slot [start_update], and the
    [__main__] wrapper.

    The script is effectful glue around collaborators that live outside the
    file (configuration store, plugin manager, update client, the operating
    system, the Qt toolkit and the user).  The embedding therefore is a small
    monad of its own:

    - the collaborators are an interface [Collab W] over an arbitrary type [W]
      of external worlds; every call may change the world and, where the
      collaborator is fallible, may fail with a Python exception;
    - every call the script makes is recorded, in program order, in a trace of
      [event]s, so that "is never invoked", "exactly once" and "after" are
      statements about a list;
    - Python's exceptions are outcomes: [Raise e] for an instance of
      [Exception], [SysExit c] for the [SystemExit] that [sys.exit(c)] raises
      (which [except Exception] lets through and a bare [except] catches).

    The calls that can fail are the ones the script guards or the design
    names as fallible: the imports, [os.makedirs], [load_plugins], the three
    steps of the update client and [exec_()] of a critical message box; to
    these come the two [TypeError]s of a folder entry of the configuration
    that is not a string, and of release notes that are neither a string
    nor [None].  Reading the configuration (by its
    contract), constructing objects and widgets, showing a warning and
    printing cannot fail.  Failures are instances of [Exception];
    asynchronous [BaseException]s such as [KeyboardInterrupt] are outside
    the model. *)

From stdpp Require Import base strings gmap list pretty.
From Stdlib Require Import ZArith.

Local Open Scope Z_scope.
Local Open Scope string_scope.
Local Open Scope list_scope.

(** ** Python values *)

(** The values that cross the interfaces of the script: configuration
    entries, fields of an update record, the download handle, the result of
    the install step. *)
Inductive value : Type :=
| VNone
| VBool (b : bool)
| VInt (n : Z)
| VStr (s : string).

(** [bool(v)]: what [if v] and [not v] test. *)
Definition truthy (v : value) : bool :=
  match v with
  | VNone => false
  | VBool b => b
  | VInt n => negb (Z.eqb n 0)
  | VStr s => negb (String.eqb s EmptyString)
  end.

(** [str(v)], as an f-string renders [{v}]. *)
Definition py_str (v : value) : string :=
  match v with
  | VNone => "None"
  | VBool true => "True"
  | VBool false => "False"
  | VInt n => pretty n
  | VStr s => s
  end.

(** The line feed of the ["\n"] escapes. *)
Definition nl : string :=
  String (Ascii.Ascii false true false true false false false false) EmptyString.

(** ** Exceptions and outcomes *)

(** An instance of [Exception]: its class and [str(e)]. *)
Record exn : Type := Exn { exn_class : string; exn_msg : string }.

Definition TypeError (msg : string) : exn := Exn "TypeError" msg.

(** How a statement ends. *)
Inductive outcome (A : Type) : Type :=
| Normal (a : A)
| Raise (e : exn)
| SysExit (code : Z).
Arguments Normal {A} a.
Arguments Raise {A} e.
Arguments SysExit {A} code.

(** What a fallible collaborator answers. *)
Inductive reply (A : Type) : Type :=
| Returns (a : A)
| Fails (e : exn).
Arguments Returns {A} a.
Arguments Fails {A} e.

(** ** Data of the script *)

(** The dict the update client's check returns: the script reads it with
    [.get('version')] and [.get("release_notes", ...)]. *)
Abbreviation UpdateInfo := (gmap string value).

(** [bool(d)] of a dict. *)
Definition dict_truthy (d : UpdateInfo) : bool :=
  negb (bool_decide (d = ∅)).

(** An [Updater] object is its constructor arguments: [Updater(v, url)] in
    [check_for_updates], [Updater(v)] in [start_update]. *)
Record Updater : Type := MkUpdater {
  upd_current_version : value;
  upd_update_url : option value
}.

(** The one top-level window of the process. *)
Inductive widget : Type := TheMainWindow.

(** The closure handed to [QTimer.singleShot]:
    [lambda: show_update_dialog(window, update_info)]. *)
Inductive callback : Type :=
| CbShowUpdateDialog (parent : widget) (update_info : UpdateInfo).

(** What the user does with the open offer. *)
Inductive user_action : Type :=
| ClickLater
| ClickUpdateNow
| CloseDialog.

(** ** The trace *)

Inductive event : Type :=
| EvPrint (line : string)
| EvConfigGet (section key : string) (got : value)
| EvQApplication
| EvSetApplicationName (name : string)
| EvSetApplicationVersion (ver : string)
| EvSetupExceptionHandling
| EvMakedirs (path : string)
| EvWarning (parent : option widget) (title text : string)
| EvSetWindowIcon (path : string)
| EvPluginManager
| EvLoadPlugins
| EvMainWindow
| EvShow
| EvUpdater (u : Updater)
| EvCheck (u : Updater)
| EvDownload (u : Updater)
| EvInstall (u : Updater) (update_file : value)
| EvSingleShot (msec : Z) (cb : callback)
| EvAppExec
| EvTimeout (cb : callback)
| EvExcepthook (e : exn)
| EvDialog (parent : widget)
| EvSetWindowTitle (title : string)
| EvSetMinimumWidth (px : Z)
| EvSetMinimumHeight (px : Z)
| EvLabel (text : string)
| EvReleaseNotes (text : string)
| EvButtons (later update : string)
| EvDialogExec
| EvAccept
| EvReject
| EvCritical (title text detailed : string).

(** ** The collaborators *)

Record Collab (W : Type) : Type := MkCollab {
  (** [app_dir]: the directory of the script. *)
  app_dir : string;
  (** the configuration store: the entry of [(section, key)], if any *)
  cfg_lookup : W → string → string → option value;
  (** [os.path.expanduser], [os.path.exists], [os.path.join] *)
  os_expanduser : W → string → string;
  os_path_exists : W → string → bool;
  os_path_join : string → list string → string;
  (** [os.makedirs(path, exist_ok=True)] *)
  os_makedirs : string → W → W * reply unit;
  (** line 10-11: the toolkit imports; lines 20-24: the application's *)
  import_toolkit : W → W * reply unit;
  import_modules : W → W * reply unit;
  (** [plugin_manager.load_plugins()] *)
  plugins_load : W → W * reply unit;
  (** the three steps of the update client *)
  updater_check : Updater → W → W * reply (option UpdateInfo);
  updater_download : Updater → W → W * reply value;
  updater_install : Updater → value → W → W * reply value;
  (** the event loop runs for [msec] milliseconds; [true] when it is still
      running then, so that a timer of that delay fires *)
  loop_wait : Z → W → W * bool;
  (** the event loop runs until it is quit: the code [exec_] returns *)
  loop_quit : W → W * Z;
  (** the offer is open until the user acts on it *)
  dialog_user : W → W * user_action;
  (** [msg.exec_()] of a critical message box *)
  critical_exec : W → W * reply unit;
  (** [traceback.format_exc()] while [e] is being handled *)
  format_exc : exn → string;
  (** the message of the [TypeError] with which the installed PyQt5 refuses
      an argument of [QTextEdit.setPlainText] that is neither a string nor
      [None]; it names the signature of the method, which differs between
      releases of the toolkit *)
  setPlainText_type_error : value → string
}.
Arguments app_dir {W}.
Arguments cfg_lookup {W}.
Arguments os_expanduser {W}.
Arguments os_path_exists {W}.
Arguments os_path_join {W}.
Arguments os_makedirs {W}.
Arguments import_toolkit {W}.
Arguments import_modules {W}.
Arguments plugins_load {W}.
Arguments updater_check {W}.
Arguments updater_download {W}.
Arguments updater_install {W}.
Arguments loop_wait {W}.
Arguments loop_quit {W}.
Arguments dialog_user {W}.
Arguments critical_exec {W}.
Arguments format_exc {W}.
Arguments setPlainText_type_error {W}.

(** ** The monad *)

(** The state a run threads: the external world, the one-shot timers that
    are pending, whether a [QApplication] instance exists and whether
    ['PyQt5'] is in [sys.modules]. *)
Record state (W : Type) : Type := MkState {
  world : W;
  timers : list (Z * callback);
  qapp : bool;
  pyqt_loaded : bool
}.
Arguments MkState {W}.
Arguments world {W}.
Arguments timers {W}.
Arguments qapp {W}.
Arguments pyqt_loaded {W}.

(** A finished run: what it did, where it left the state, how it ended. *)
Record run (W A : Type) : Type := MkRun {
  r_trace : list event;
  r_state : state W;
  r_out : outcome A
}.
Arguments MkRun {W A}.
Arguments r_trace {W A}.
Arguments r_state {W A}.
Arguments r_out {W A}.

Definition M (W A : Type) : Type := state W → run W A.

Definition ret {W A} (a : A) : M W A :=
  λ st, MkRun [] st (Normal a).

Definition bind {W A B} (m : M W A) (k : A → M W B) : M W B :=
  λ st,
    let r := m st in
    match r_out r with
    | Normal a =>
        let r' := k a (r_state r) in
        MkRun (r_trace r ++ r_trace r') (r_state r') (r_out r')
    | Raise e => MkRun (r_trace r) (r_state r) (Raise e)
    | SysExit c => MkRun (r_trace r) (r_state r) (SysExit c)
    end.

Global Instance M_ret {W} : MRet (M W) := λ A, ret.
Global Instance M_bind {W} : MBind (M W) := λ A B k m, bind m k.

Definition emit {W} (e : event) : M W unit :=
  λ st, MkRun [e] st (Normal tt).

Definition raise {W A} (e : exn) : M W A :=
  λ st, MkRun [] st (Raise e).

(** [sys.exit(c)] *)
Definition sys_exit {W A} (c : Z) : M W A :=
  λ st, MkRun [] st (SysExit c).

Definition get_state {W} : M W (state W) :=
  λ st, MkRun [] st (Normal st).

Definition put_state {W} (st' : state W) : M W unit :=
  λ _, MkRun [] st' (Normal tt).

Definition set_world {W} (w : W) (st : state W) : state W :=
  MkState w (timers st) (qapp st) (pyqt_loaded st).

(** A call of a fallible collaborator. *)
Definition ask {W A} (f : W → W * reply A) : M W A :=
  λ st,
    let '(w, a) := f (world st) in
    MkRun [] (set_world w st)
      match a with Returns x => Normal x | Fails e => Raise e end.

(** A call of a collaborator that cannot fail. *)
Definition ask_total {W A} (f : W → W * A) : M W A :=
  λ st, let '(w, a) := f (world st) in MkRun [] (set_world w st) (Normal a).

(** [try: body / except Exception: handler(e)] *)
Definition try_except_Exception {W A} (body : M W A) (handler : exn → M W A)
  : M W A :=
  λ st,
    let r := body st in
    match r_out r with
    | Raise e =>
        let r' := handler e (r_state r) in
        MkRun (r_trace r ++ r_trace r') (r_state r') (r_out r')
    | _ => r
    end.

(** [try: body / except: handler] *)
Definition try_except_all {W A} (body : M W A) (handler : M W A) : M W A :=
  λ st,
    let r := body st in
    match r_out r with
    | Normal _ => r
    | _ =>
        let r' := handler (r_state r) in
        MkRun (r_trace r ++ r_trace r') (r_state r') (r_out r')
    end.

(** A Python callable run by the Qt event loop (a timer callback, a slot of
    a button): an exception it raises does not unwind the loop, it goes to
    [sys.excepthook], the process-wide reporter that
    [setup_exception_handling] installs. *)
Definition slot {W} (body : M W unit) : M W unit :=
  try_except_Exception body (λ e, emit (EvExcepthook e)).

(** The name of [type(v)], as a [TypeError] prints it. *)
Definition type_name (v : value) : string :=
  match v with
  | VNone => "NoneType"
  | VBool _ => "bool"
  | VInt _ => "int"
  | VStr _ => "str"
  end.

(** ** The script *)

Section Script.
Context {W : Type} (env : Collab W).

Definition print (line : string) : M W unit := emit (EvPrint line).

(** Modelled from the spec: [get_config().get(section, key, default)] of
    [app.config], which is not part of the sources.  The accessor is a
    key-path lookup that never fails; a missing key yields the default the
    caller supplies.  The lookup reads the store as it is when the call is
    made. *)
Definition config_get (section key : string) (dflt : value) : M W value :=
  st ← get_state;
  let v := default dflt (cfg_lookup env (world st) section key) in
  emit (EvConfigGet section key v);;
  mret v.

(** [os.path.expanduser(v)]: a [TypeError] unless [v] is a string. *)
Definition expanduser (v : value) : M W string :=
  match v with
  | VStr s => st ← get_state; mret (os_expanduser env (world st) s)
  | _ =>
      raise (TypeError ("expected str, bytes or os.PathLike object, not "
                        +:+ type_name v))
  end.

Definition path_exists (path : string) : M W bool :=
  st ← get_state; mret (os_path_exists env (world st) path).

Definition makedirs (path : string) : M W unit :=
  emit (EvMakedirs path);; ask (os_makedirs env path).

(** [QMessageBox.warning(parent, title, text)] *)
Definition warning (parent : option widget) (title text : string)
  : M W unit :=
  emit (EvWarning parent title text).

(** [QApplication(sys.argv)] *)
Definition QApplication_new : M W unit :=
  emit EvQApplication;;
  st ← get_state;
  put_state (MkState (world st) (timers st) true (pyqt_loaded st)).

(** [msg = QMessageBox()], its icon, title, text and detailed text, and
    [msg.exec_()] *)
Definition critical (title text detailed : string) : M W unit :=
  emit (EvCritical title text detailed);; ask (critical_exec env).

(** [Updater(current_version, update_url)] and [Updater(current_version)] *)
Definition Updater_new (current_version : value) (url : option value)
  : M W Updater :=
  let u := MkUpdater current_version url in
  emit (EvUpdater u);; mret u.

Definition Updater_check (u : Updater) : M W (option UpdateInfo) :=
  emit (EvCheck u);; ask (updater_check env u).

Definition Updater_download (u : Updater) : M W value :=
  emit (EvDownload u);; ask (updater_download env u).

Definition Updater_install (u : Updater) (update_file : value)
  : M W value :=
  emit (EvInstall u update_file);; ask (updater_install env u update_file).

(** [QTimer.singleShot(msec, cb)] *)
Definition singleShot (msec : Z) (cb : callback) : M W unit :=
  emit (EvSingleShot msec cb);;
  st ← get_state;
  put_state
    (MkState (world st) (timers st ++ [(msec, cb)]) (qapp st)
       (pyqt_loaded st)).

(** *** [check_for_updates], lines 42-57

    The result is the dict of the update client, or [None] for the
    [False] the function returns otherwise. *)
Definition check_for_updates : M W (option UpdateInfo) :=
  enabled ← config_get "app" "check_updates" (VBool true);
  if negb (truthy enabled) then mret None
  else
    current_version ← config_get "app" "version" (VStr "3.0.6");
    update_url ←
      config_get "app" "update_url"
        (VStr "https://example.com/updates/mk_processor.json");
    updater ← Updater_new current_version (Some update_url);
    update_info ← Updater_check updater;
    match update_info with
    | Some d => if dict_truthy d then mret (Some d) else mret None
    | None => mret None
    end.

(** *** [start_update], lines 143-157: the slot of the "Update Now" button *)
Definition start_update (parent : widget) : M W unit :=
  emit EvAccept;;
  current_version ← config_get "app" "version" (VStr "3.0.6");
  updater ← Updater_new current_version None;
  update_file ← Updater_download updater;
  if truthy update_file then
    result ← Updater_install updater update_file;
    if negb (truthy result) then
      warning (Some parent) "Update Failed"
        "Failed to install the update. Please try again later."
    else mret tt
  else mret tt.

(** [notes.setPlainText(v)]: PyQt5 converts a string, and [None] to the
    null [QString], so that the box is left empty; any other value is
    refused with a [TypeError]. *)
Definition setPlainText (v : value) : M W unit :=
  match v with
  | VStr s => emit (EvReleaseNotes s)
  | VNone => emit (EvReleaseNotes EmptyString)
  | _ => raise (TypeError (setPlainText_type_error env v))
  end.

(** [dialog.exec_()]: the offer is shown until the user acts; "Later" and
    closing the dialog reject it, "Update Now" runs [start_update]. *)
Definition dialog_exec (parent : widget) : M W unit :=
  emit EvDialogExec;;
  action ← ask_total (dialog_user env);
  match action with
  | ClickLater => emit EvReject
  | CloseDialog => emit EvReject
  | ClickUpdateNow => slot (start_update parent)
  end.

(** *** [show_update_dialog], lines 109-162 *)
Definition show_update_dialog (parent : widget) (update_info : UpdateInfo)
  : M W unit :=
  emit (EvDialog parent);;
  emit (EvSetWindowTitle "Update Available");;
  emit (EvSetMinimumWidth 400);;
  emit (EvSetMinimumHeight 300);;
  emit (EvLabel ("<h3>MK Processor "
                 +:+ py_str (default VNone (update_info !! "version"))
                 +:+ " is available!</h3>"));;
  current_version ← config_get "app" "version" (VStr "3.0.6");
  emit (EvLabel ("You are currently using version "
                 +:+ py_str current_version));;
  emit (EvLabel "<b>Release Notes:</b>");;
  setPlainText
    (default (VStr "No release notes available.")
       (update_info !! "release_notes"));;
  emit (EvButtons "Later" "Update Now");;
  dialog_exec parent.

Definition run_callback (cb : callback) : M W unit :=
  match cb with
  | CbShowUpdateDialog parent update_info =>
      show_update_dialog parent update_info
  end.

(** The one-shot timers that were pending when the loop started, in the
    order they were posted: each fires once, unless the loop has been quit
    before it is due.  (The script posts at most one.) *)
Fixpoint fire (pending : list (Z * callback)) : M W unit :=
  match pending with
  | [] => mret tt
  | (msec, cb) :: rest =>
      running ← ask_total (loop_wait env msec);
      if (running : bool) then
        emit (EvTimeout cb);;
        slot (run_callback cb);;
        fire rest
      else mret tt
  end.

(** [app.exec_()] *)
Definition app_exec : M W Z :=
  emit EvAppExec;;
  st ← get_state;
  put_state (MkState (world st) [] (qapp st) (pyqt_loaded st));;
  fire (timers st);;
  ask_total (loop_quit env).

(** The text of the "Directory Warning", lines 81-83. *)
Definition directory_warning_text (web_folder : string) (e : exn) : string :=
  "Could not create web folder at " +:+ web_folder +:+ "." +:+ nl +:+ nl
  +:+ "Error: " +:+ exn_msg e +:+ nl +:+ nl
  +:+ "The application will continue, but functionality may be limited.".

(** *** [main], lines 60-106 *)
Definition main : M W Z :=
  QApplication_new;;
  emit (EvSetApplicationName "MK Processor");;
  emit (EvSetApplicationVersion "3.0.6");;
  emit EvSetupExceptionHandling;;
  folder ← config_get "google_drive" "web_folder"
             (VStr "~/GoogleDriveMount/Web/");
  web_folder ← expanduser folder;
  there ← path_exists web_folder;
  (if negb there then
     try_except_Exception (makedirs web_folder)
       (λ e, warning None "Directory Warning"
               (directory_warning_text web_folder e))
   else mret tt);;
  let icon_path :=
    os_path_join env (app_dir env) ["resources"; "icons"; "app_icon.png"] in
  icon ← path_exists icon_path;
  (if (icon : bool) then emit (EvSetWindowIcon icon_path) else mret tt);;
  emit EvPluginManager;;
  emit EvLoadPlugins;;
  ask (plugins_load env);;
  emit EvMainWindow;;
  let window := TheMainWindow in
  emit EvShow;;
  update_info ← check_for_updates;
  match update_info with
  | Some d => singleShot 1000 (CbShowUpdateDialog window d)
  | None => mret tt
  end;;
  app_exec.

(** *** The import guard, lines 19-39

    The module is run as a script, so [__name__ == "__main__"] holds. *)
Definition import_guard : M W unit :=
  try_except_Exception (ask (import_modules env))
    (λ e,
       print ("Error importing required modules: " +:+ exn_msg e);;
       print (format_exc env e);;
       st ← get_state;
       (if pyqt_loaded st then
          QApplication_new;;
          critical "Module Import Error"
            ("Failed to import required modules: " +:+ exn_msg e)
            (format_exc env e)
        else mret tt);;
       sys_exit 1).

(** *** The [__main__] wrapper, lines 165-189 *)
Definition entry_point : M W unit :=
  try_except_Exception (code ← main; sys_exit code)
    (λ e,
       print ("Unhandled application error: " +:+ exn_msg e);;
       print (format_exc env e);;
       try_except_all
         (st ← get_state;
          (if negb (qapp st) then QApplication_new else mret tt);;
          critical "Application Error"
            ("An unhandled error occurred: " +:+ exn_msg e)
            (format_exc env e))
         (mret tt);;
       sys_exit 1).

(** *** The module as a script

    The toolkit imports of lines 10-11 put ['PyQt5'] into [sys.modules];
    then the import guard and the wrapper run, in this order. *)
Definition script : M W unit :=
  ask (import_toolkit env);;
  st ← get_state;
  put_state (MkState (world st) (timers st) (qapp st) true);;
  import_guard;;
  entry_point.

(** The state of a fresh process. *)
Definition boot (w : W) : state W := MkState w [] false false.

(** The status of the process that ends in [sys.exit(code)], on a POSIX
    system with 64-bit [long]: CPython converts the code to a C [long] and
    hands it to [exit] as an [int], and the system keeps its low eight bits;
    a code that does not fit a [long] becomes [-1], that is status 255. *)
Definition sys_exit_status (code : Z) : Z :=
  if Z.leb (- 2 ^ 63) code && Z.ltb code (2 ^ 63) then code `mod` 256
  else 255.

(** The status the interpreter exits with: that of the [sys.exit] that ends
    the script, [1] after the traceback of an exception nothing caught, [0]
    when the script runs off its end. *)
Definition exit_status (r : run W unit) : Z :=
  match r_out r with
  | Normal _ => 0
  | Raise _ => 1
  | SysExit code => sys_exit_status code
  end.

Definition python_main (w : W) : run W unit := script (boot w).

End Script.

(** ** A scripted world

    Concrete collaborators, to run the script on: a [scenario] fixes what
    each collaborator answers; the world is the scenario and a clock that
    the event loop and the open offer advance.  The configured version is
    read off the clock, so that a scenario can change it between the check,
    the prompt and the acceptance. *)

Record scenario : Type := MkScenario {
  sc_check_updates : option value;
  sc_versions : list value;
  sc_update_url : option value;
  sc_web_folder : option value;
  sc_folder_exists : bool;
  sc_icon_exists : bool;
  sc_makedirs : reply unit;
  sc_toolkit : reply unit;
  sc_imports : reply unit;
  sc_plugins : reply unit;
  sc_check : reply (option UpdateInfo);
  sc_download : reply value;
  sc_install : reply value;
  sc_loop_running : bool;
  sc_quit_code : Z;
  sc_user : user_action;
  sc_critical : reply unit
}.

Definition sim : Type := nat * scenario.

Definition sim_lookup (w : sim) (section key : string) : option value :=
  if String.eqb section "app" && String.eqb key "check_updates"
  then sc_check_updates w.2
  else if String.eqb section "app" && String.eqb key "version"
  then sc_versions w.2 !! w.1
  else if String.eqb section "app" && String.eqb key "update_url"
  then sc_update_url w.2
  else if String.eqb section "google_drive" && String.eqb key "web_folder"
  then sc_web_folder w.2
  else None.

Definition sim_join (dir : string) (parts : list string) : string :=
  foldl (λ acc part, acc +:+ "/" +:+ part) dir parts.

Definition sim_env : Collab sim := {|
  app_dir := "/opt/mk";
  cfg_lookup := sim_lookup;
  os_expanduser := λ _ s, s;
  os_path_exists := λ w path,
    if String.eqb path "/opt/mk/resources/icons/app_icon.png"
    then sc_icon_exists w.2 else sc_folder_exists w.2;
  os_path_join := sim_join;
  os_makedirs := λ _ w, (w, sc_makedirs w.2);
  import_toolkit := λ w, (w, sc_toolkit w.2);
  import_modules := λ w, (w, sc_imports w.2);
  plugins_load := λ w, (w, sc_plugins w.2);
  updater_check := λ _ w, (w, sc_check w.2);
  updater_download := λ _ w, (w, sc_download w.2);
  updater_install := λ _ _ w, (w, sc_install w.2);
  loop_wait := λ _ w, ((S w.1, w.2), sc_loop_running w.2);
  loop_quit := λ w, (w, sc_quit_code w.2);
  dialog_user := λ w, ((S w.1, w.2), sc_user w.2);
  critical_exec := λ w, (w, sc_critical w.2);
  format_exc := λ e,
    "Traceback (most recent call last): " +:+ exn_class e +:+ ": " +:+ exn_msg e;
  setPlainText_type_error := λ v,
    "setPlainText(self, text: Optional[str]): argument 1 has unexpected type '"
    +:+ type_name v +:+ "'"
|}.

(** The state in which the offer opens, one tick after the check. *)
Definition prompt_state (sc : scenario) : state sim :=
  MkState (1%nat, sc) [] true true.

(** A release on offer. *)
Definition offer_307 : UpdateInfo :=
  {[ "version" := VStr "3.0.7";
     "release_notes" := VStr "Fixes.";
     "download_ref" := VStr "https://example.com/updates/3.0.7.zip" ]}.

(** Everything works: the folder is there, an update is on offer, the user
    accepts it, the download and the install succeed, the loop quits with 0. *)
Definition sunny : scenario := {|
  sc_check_updates := None;
  sc_versions := [VStr "3.0.6"; VStr "3.0.6"; VStr "3.0.6"];
  sc_update_url := None;
  sc_web_folder := Some (VStr "/srv/web");
  sc_folder_exists := true;
  sc_icon_exists := true;
  sc_makedirs := Returns tt;
  sc_toolkit := Returns tt;
  sc_imports := Returns tt;
  sc_plugins := Returns tt;
  sc_check := Returns (Some offer_307);
  sc_download := Returns (VStr "/tmp/mk_update.zip");
  sc_install := Returns (VBool true);
  sc_loop_running := true;
  sc_quit_code := 0;
  sc_user := ClickUpdateNow;
  sc_critical := Returns tt
|}.

(** Scenarios that differ from another in one answer. *)
Definition with_check_updates (x : option value) (s : scenario) : scenario :=
  let 'MkScenario _ b c d e f g h i j k l m n o p q := s in
  MkScenario x b c d e f g h i j k l m n o p q.
Definition with_versions (x : list value) (s : scenario) : scenario :=
  let 'MkScenario a _ c d e f g h i j k l m n o p q := s in
  MkScenario a x c d e f g h i j k l m n o p q.
Definition with_folder_exists (x : bool) (s : scenario) : scenario :=
  let 'MkScenario a b c d _ f g h i j k l m n o p q := s in
  MkScenario a b c d x f g h i j k l m n o p q.
Definition with_makedirs (x : reply unit) (s : scenario) : scenario :=
  let 'MkScenario a b c d e f _ h i j k l m n o p q := s in
  MkScenario a b c d e f x h i j k l m n o p q.
Definition with_imports (x : reply unit) (s : scenario) : scenario :=
  let 'MkScenario a b c d e f g h _ j k l m n o p q := s in
  MkScenario a b c d e f g h x j k l m n o p q.
Definition with_plugins (x : reply unit) (s : scenario) : scenario :=
  let 'MkScenario a b c d e f g h i _ k l m n o p q := s in
  MkScenario a b c d e f g h i x k l m n o p q.
Definition with_check (x : reply (option UpdateInfo)) (s : scenario)
  : scenario :=
  let 'MkScenario a b c d e f g h i j _ l m n o p q := s in
  MkScenario a b c d e f g h i j x l m n o p q.
Definition with_download (x : reply value) (s : scenario) : scenario :=
  let 'MkScenario a b c d e f g h i j k _ m n o p q := s in
  MkScenario a b c d e f g h i j k x m n o p q.
Definition with_install (x : reply value) (s : scenario) : scenario :=
  let 'MkScenario a b c d e f g h i j k l _ n o p q := s in
  MkScenario a b c d e f g h i j k l x n o p q.
Definition with_quit_code (x : Z) (s : scenario) : scenario :=
  let 'MkScenario a b c d e f g h i j k l m n _ p q := s in
  MkScenario a b c d e f g h i j k l m n x p q.
Definition with_user (x : user_action) (s : scenario) : scenario :=
  let 'MkScenario a b c d e f g h i j k l m n o _ q := s in
  MkScenario a b c d e f g h i j k l m n o x q.
Definition with_critical (x : reply unit) (s : scenario) : scenario :=
  let 'MkScenario a b c d e f g h i j k l m n o p _ := s in
  MkScenario a b c d e f g h i j k l m n o p x.

(** The manifest cannot be fetched. *)
Definition connection_error : exn :=
  Exn "ConnectionError" "Max retries exceeded with url: /updates/mk_processor.json".
Definition offline : scenario := with_check (Fails connection_error) sunny.

(** The update check is switched off. *)
Definition updates_off : scenario :=
  with_check_updates (Some (VBool false)) sunny.

(** No update is on offer. *)
Definition up_to_date : scenario := with_check (Returns None) sunny.

(** The web folder is missing and cannot be created. *)
Definition permission_error : exn :=
  Exn "PermissionError" "[Errno 13] Permission denied: '/srv/web'".
Definition readonly_disk : scenario :=
  with_folder_exists false (with_makedirs (Fails permission_error) sunny).

(** The download yields nothing. *)
Definition download_empty : scenario := with_download (Returns VNone) sunny.

(** The install step reports that it did not succeed. *)
Definition install_refused : scenario :=
  with_install (Returns (VBool false)) sunny.

(** The user dismisses the offer. *)
Definition not_now : scenario := with_user ClickLater sunny.

(** The configured version moves while the application runs: one value at
    the check, another when the offer opens, a third when it is accepted. *)
Definition version_moves : scenario :=
  with_versions [VStr "3.0.6"; VStr "3.0.7"; VStr "3.0.8"] sunny.

(** A plugin cannot be loaded, and no error dialog can be shown either. *)
Definition plugin_error : exn := Exn "ImportError" "No module named 'yaml'".
Definition display_error : exn := Exn "RuntimeError" "could not connect to display".
Definition headless_crash : scenario :=
  with_plugins (Fails plugin_error) (with_critical (Fails display_error) sunny).

(** A required module is missing. *)
Definition module_error : exn :=
  Exn "ModuleNotFoundError" "No module named 'update'".
Definition broken_install : scenario := with_imports (Fails module_error) sunny.

(** The loop is left with a code other than 0. *)
Definition exit_3 : scenario := with_quit_code 3 up_to_date.

(** The same release as [offer_307], with other notes and another place to
    download it from. *)
Definition offer_307_mirror : UpdateInfo :=
  {[ "version" := VStr "3.0.7";
     "release_notes" := VStr "See the changelog.";
     "download_ref" := VStr "https://mirror.example.org/3.0.7.zip" ]}.

(** The same release again, with release notes that are [None]. *)
Definition offer_307_no_notes : UpdateInfo :=
  {[ "version" := VStr "3.0.7";
     "release_notes" := VNone;
     "download_ref" := VStr "https://example.com/updates/3.0.7.zip" ]}.


(** The web folder cannot be created, and then a plugin cannot be loaded. *)
Definition readonly_disk_bad_plugin : scenario :=
  with_plugins (Fails plugin_error) readonly_disk.

(** * Observing runs *)

(** ** Classes of events *)

(** The update client is constructed or one of its steps is invoked. *)
Definition is_update_client (e : event) : bool :=
  match e with
  | EvUpdater _ | EvCheck _ | EvDownload _ | EvInstall _ _ => true
  | _ => false
  end.

Definition is_download (e : event) : bool :=
  match e with EvDownload _ => true | _ => false end.

Definition is_install (e : event) : bool :=
  match e with EvInstall _ _ => true | _ => false end.

Definition is_warning (e : event) : bool :=
  match e with EvWarning _ _ _ => true | _ => false end.

Definition is_excepthook (e : event) : bool :=
  match e with EvExcepthook _ => true | _ => false end.

(** The steps of the update flow and what the user is told about them. *)
Definition is_flow (e : event) : bool :=
  is_download e || is_install e || is_warning e || is_excepthook e.

(** The shell is shown, the notification is scheduled or its timer fires. *)
Definition is_show_or_sched (e : event) : bool :=
  match e with
  | EvShow | EvSingleShot _ _ | EvTimeout _ => true
  | _ => false
  end.

(** The folder is created, a warning without a parent window is shown, the
    plugins are loaded, the shell is constructed or shown. *)
Definition is_bootstrap (e : event) : bool :=
  match e with
  | EvMakedirs _ | EvWarning None _ _ | EvLoadPlugins | EvMainWindow
  | EvShow => true
  | _ => false
  end.

Definition is_label (e : event) : bool :=
  match e with EvLabel _ => true | _ => false end.

Definition is_config_get (e : event) : bool :=
  match e with EvConfigGet _ _ _ => true | _ => false end.

(** An event that involves an [Updater] involves [u]. *)
Definition uses_updater (u : Updater) (e : event) : Prop :=
  match e with
  | EvUpdater u' | EvCheck u' | EvDownload u' | EvInstall u' _ => u' = u
  | _ => True
  end.

(** What [check_for_updates] can emit, what [show_update_dialog] can, and
    what the part of [main] that follows [window.show()] can. *)
Definition is_check_part (e : event) : bool :=
  match e with
  | EvConfigGet _ _ _ | EvUpdater _ | EvCheck _ => true
  | _ => false
  end.

Definition is_dialog_part (e : event) : bool :=
  match e with
  | EvConfigGet _ _ _ | EvUpdater _ | EvDownload _ | EvInstall _ _
  | EvDialog _ | EvSetWindowTitle _ | EvSetMinimumWidth _
  | EvSetMinimumHeight _ | EvLabel _ | EvReleaseNotes _ | EvButtons _ _
  | EvDialogExec | EvAccept | EvReject | EvExcepthook _
  | EvWarning (Some _) _ _ => true
  | _ => false
  end.

Definition is_update_part (e : event) : bool :=
  match e with
  | EvSingleShot _ _ | EvAppExec | EvTimeout _ => true
  | _ => is_check_part e || is_dialog_part e
  end.

(** ** Parts of runs *)

(** A run that continues another: the events so far come first. *)
Definition prepend {W A} (t : list event) (r : run W A) : run W A :=
  MkRun (t ++ r_trace r) (r_state r) (r_out r).

(** The run of [m ≫= k] from the run of [m]. *)
Definition continue {W A B} (r : run W A) (k : A → M W B) : run W B :=
  match r_out r with
  | Normal a => prepend (r_trace r) (k a (r_state r))
  | Raise e => MkRun (r_trace r) (r_state r) (Raise e)
  | SysExit c => MkRun (r_trace r) (r_state r) (SysExit c)
  end.

(** A computation emits no event of class [f]; it leaves the pending
    timers alone; it never calls [sys.exit]. *)
Definition silent {W} (f : event → bool) {A} (m : M W A) : Prop :=
  ∀ st, List.filter f (r_trace (m st)) = [].

Definition keeps_timers {W A} (m : M W A) : Prop :=
  ∀ st, timers (r_state (m st)) = timers st.

Definition never_exits {W A} (m : M W A) : Prop :=
  ∀ st c, r_out (m st) ≠ SysExit c.

Section Parts.
Context {W : Type} (env : Collab W).

(** The configured version as the store has it in world [w], with the
    fallback of lines 48, 122 and 147. *)
Definition configured_version (w : W) : value :=
  default (VStr "3.0.6") (cfg_lookup env w "app" "version").

(** The configured manifest URL, with the fallback of line 49. *)
Definition configured_update_url (w : W) : value :=
  default (VStr "https://example.com/updates/mk_processor.json")
    (cfg_lookup env w "app" "update_url").

(** The update-check toggle, with the fallback of line 45. *)
Definition configured_check_updates (w : W) : value :=
  default (VBool true) (cfg_lookup env w "app" "check_updates").

(** The [Updater] that [check_for_updates] constructs in world [w], and
    the one that [start_update] constructs. *)
Definition check_updater (w : W) : Updater :=
  MkUpdater (configured_version w) (Some (configured_update_url w)).

Definition download_updater (w : W) : Updater :=
  MkUpdater (configured_version w) None.

(** [main] up to and including [window.show()], lines 62-97. *)
Definition main_until_show : M W widget :=
  QApplication_new;;
  emit (EvSetApplicationName "MK Processor");;
  emit (EvSetApplicationVersion "3.0.6");;
  emit EvSetupExceptionHandling;;
  folder ← config_get env "google_drive" "web_folder"
             (VStr "~/GoogleDriveMount/Web/");
  web_folder ← expanduser env folder;
  there ← path_exists env web_folder;
  (if negb there then
     try_except_Exception (makedirs env web_folder)
       (λ e, warning None "Directory Warning"
               (directory_warning_text web_folder e))
   else mret tt);;
  let icon_path :=
    os_path_join env (app_dir env) ["resources"; "icons"; "app_icon.png"] in
  icon ← path_exists env icon_path;
  (if (icon : bool) then emit (EvSetWindowIcon icon_path) else mret tt);;
  emit EvPluginManager;;
  emit EvLoadPlugins;;
  ask (plugins_load env);;
  emit EvMainWindow;;
  emit EvShow;;
  mret TheMainWindow.

(** The rest of [main], lines 99-106. *)
Definition main_from_check (window : widget) : M W Z :=
  update_info ← check_for_updates env;
  match update_info with
  | Some d => singleShot 1000 (CbShowUpdateDialog window d)
  | None => mret tt
  end;;
  app_exec env.

(** What [show_update_dialog] puts on the screen before the user acts,
    lines 113-162, when the configured version is [current]. *)
Definition offer_events (parent : widget) (update_info : UpdateInfo)
  (current : value) (notes : string) : list event :=
  [ EvDialog parent;
    EvSetWindowTitle "Update Available";
    EvSetMinimumWidth 400;
    EvSetMinimumHeight 300;
    EvLabel ("<h3>MK Processor "
             +:+ py_str (default VNone (update_info !! "version"))
             +:+ " is available!</h3>");
    EvConfigGet "app" "version" current;
    EvLabel ("You are currently using version " +:+ py_str current);
    EvLabel "<b>Release Notes:</b>";
    EvReleaseNotes notes;
    EvButtons "Later" "Update Now";
    EvDialogExec ].

(** The state in which [main] runs when both imports have succeeded. *)
Definition imported (w : W) : state W :=
  MkState (import_modules env (import_toolkit env w).1).1 [] false true.

End Parts.

(** The release notes the offer shows: the record's, when they are a
    string; nothing, when they are [None]; the default text, when the record
    has no such entry.  With notes of another type (a number, a boolean)
    [setPlainText] raises and no offer is presented. *)
Definition notes_of (update_info : UpdateInfo) : option string :=
  match update_info !! "release_notes" with
  | None => Some "No release notes available."
  | Some (VStr s) => Some s
  | Some VNone => Some EmptyString
  | Some _ => None
  end.

(** ** The states of the update flow

    Following the words of the specification: [Offered], then [Declined] or
    [Downloading]; from there [DownloadFailed] or [Installing]; from there
    [InstallFailed] or [Installed]. *)
Inductive flow_state : Type :=
| Offered
| Declined
| Downloading
| DownloadFailed
| Installing
| InstallFailed
| Installed.

(** The state after one more event of the script: rejecting the dialog
    declines; accepting it starts the download; the install step is entered
    when it is invoked; a warning while installing, or an exception reported
    from either step, is the failure of that step. *)
Definition flow_step (s : flow_state) (e : event) : flow_state :=
  match s, e with
  | Offered, EvReject => Declined
  | Offered, EvAccept => Downloading
  | Downloading, EvInstall _ _ => Installing
  | Downloading, EvExcepthook _ => DownloadFailed
  | Installing, EvWarning _ _ _ => InstallFailed
  | Installing, EvExcepthook _ => InstallFailed
  | _, _ => s
  end.

(** The state the flow rests in when the slot has returned: a download
    that was not followed by an install has failed; an install that was not
    followed by a failure has succeeded. *)
Definition flow_rest (s : flow_state) : flow_state :=
  match s with
  | Downloading => DownloadFailed
  | Installing => Installed
  | _ => s
  end.

Definition flow_of (t : list event) : flow_state :=
  flow_rest (foldl flow_step Offered t).

(** ** Further classes of events *)

(** The shell is constructed or shown. *)
Definition is_shell (e : event) : bool :=
  match e with EvMainWindow | EvShow => true | _ => false end.

(** A [QApplication] is constructed. *)
Definition is_qapplication (e : event) : bool :=
  match e with EvQApplication => true | _ => false end.

(** The web folder is created, or the user is warned that it could not
    be. *)
Definition is_directory (e : event) : bool :=
  match e with EvMakedirs _ | EvWarning None _ _ => true | _ => false end.

(** What the update feature does: the update client is touched, the
    notification is scheduled or fires, the offer is built, opened or
    answered. *)
Definition is_update_activity (e : event) : bool :=
  match e with
  | EvUpdater _ | EvCheck _ | EvDownload _ | EvInstall _ _
  | EvSingleShot _ _ | EvTimeout _ | EvDialog _ | EvDialogExec
  | EvAccept | EvReject => true
  | _ => false
  end.

(** What the offer shows: its labels and the release notes. *)
Definition is_offer_text (e : event) : bool :=
  match e with EvLabel _ | EvReleaseNotes _ => true | _ => false end.

(** The window icon; the event loop and its timers; the process-wide
    reporter. *)
Definition is_icon (e : event) : bool :=
  match e with EvSetWindowIcon _ => true | _ => false end.

Definition is_event_loop (e : event) : bool :=
  match e with
  | EvSingleShot _ _ | EvAppExec | EvTimeout _ => true
  | _ => false
  end.

Definition is_reporter_setup (e : event) : bool :=
  match e with EvSetupExceptionHandling => true | _ => false end.

(** A computation leaves the [QApplication] instance alone. *)
Definition keeps_qapp {W A} (m : M W A) : Prop :=
  ∀ st, qapp (r_state (m st)) = qapp st.

(** ** Further scenarios *)

Definition with_web_folder (x : option value) (s : scenario) : scenario :=
  let 'MkScenario a b c _ e f g h i j k l m n o p q := s in
  MkScenario a b c x e f g h i j k l m n o p q.
Definition with_toolkit (x : reply unit) (s : scenario) : scenario :=
  let 'MkScenario a b c d e f g _ i j k l m n o p q := s in
  MkScenario a b c d e f g x i j k l m n o p q.

(** The folder entry of the configuration is [None]. *)
Definition folder_is_none : scenario := with_web_folder (Some VNone) sunny.

(** The toggle is stored as the text "false". *)
Definition toggle_as_text : scenario :=
  with_check_updates (Some (VStr "false")) sunny.

(** The configuration has no entry for the version either. *)
Definition no_app_entries : scenario := with_versions [] sunny.

(** The toolkit itself is missing. *)
Definition toolkit_error : exn :=
  Exn "ModuleNotFoundError" "No module named 'PyQt5'".
Definition no_toolkit : scenario := with_toolkit (Fails toolkit_error) sunny.

(** The download breaks off; the installer crashes. *)
Definition download_error : exn :=
  Exn "ConnectionError" "Connection reset by peer".
Definition download_fails : scenario :=
  with_download (Fails download_error) sunny.

Definition install_error : exn :=
  Exn "PermissionError" "[Errno 13] Permission denied: '/opt/mk/app'".
Definition install_fails : scenario :=
  with_install (Fails install_error) sunny.

(** A record without a version, and one without release notes; a record
    whose release notes are [None], and one whose release notes are a
    number. *)
Definition offer_without_version : UpdateInfo :=
  {[ "release_notes" := VStr "Fixes." ]}.

Definition offer_without_notes : UpdateInfo :=
  {[ "version" := VStr "3.0.7" ]}.

Definition offer_null_notes : UpdateInfo :=
  {[ "version" := VStr "3.0.7"; "release_notes" := VNone ]}.

Definition offer_numeric_notes : UpdateInfo :=
  {[ "version" := VStr "3.0.7"; "release_notes" := VInt 307 ]}.

(** * Reasoning about runs *)

(** ** The equations of the monad and of the script's primitives *)

Section Equations.
Context {W : Type} (env : Collab W).
Implicit Types st : state W.

Lemma prepend_nil {A} (r : run W A) : prepend [] r = r.
Proof. by destruct r. Qed.

Lemma prepend_prepend {A} t t' (r : run W A) :
  prepend t (prepend t' r) = prepend (t ++ t') r.
Proof. unfold prepend; simpl. by rewrite app_assoc. Qed.

Lemma prepend_MkRun {A} t t' st (o : outcome A) :
  prepend t (MkRun t' st o) = MkRun (t ++ t') st o.
Proof. reflexivity. Qed.

Lemma r_trace_prepend {A} t (r : run W A) :
  r_trace (prepend t r) = t ++ r_trace r.
Proof. reflexivity. Qed.

Lemma r_out_prepend {A} t (r : run W A) : r_out (prepend t r) = r_out r.
Proof. reflexivity. Qed.

Lemma r_state_prepend {A} t (r : run W A) :
  r_state (prepend t r) = r_state r.
Proof. reflexivity. Qed.

Lemma bind_run {A B} (m : M W A) (k : A → M W B) st :
  (m ≫= k) st = continue (m st) k.
Proof. reflexivity. Qed.

Lemma bind_assoc {A B C} (m : M W A) (f : A → M W B) (g : B → M W C) st :
  ((m ≫= f) ≫= g) st = (m ≫= λ a, f a ≫= g) st.
Proof.
  rewrite !bind_run. unfold continue at 2 3. destruct (r_out (m st)); try done.
  rewrite bind_run. unfold continue, prepend; simpl.
  destruct (r_out (f a (r_state (m st)))); simpl; try done.
  by rewrite app_assoc.
Qed.

Lemma ret_bind {A B} (a : A) (k : A → M W B) st : (mret a ≫= k) st = k a st.
Proof. rewrite bind_run. apply prepend_nil. Qed.

Lemma emit_bind {B} e (k : unit → M W B) st :
  (emit e ≫= k) st = prepend [e] (k tt st).
Proof. reflexivity. Qed.

Lemma raise_bind {A B} e (k : A → M W B) st :
  (raise e ≫= k) st = MkRun [] st (Raise e).
Proof. reflexivity. Qed.

Lemma sys_exit_bind {A B} c (k : A → M W B) st :
  (sys_exit c ≫= k) st = MkRun [] st (SysExit c).
Proof. reflexivity. Qed.

Lemma get_state_bind {B} (k : state W → M W B) st :
  (get_state ≫= k) st = k st st.
Proof. rewrite bind_run. apply prepend_nil. Qed.

Lemma put_state_bind {B} st' (k : unit → M W B) st :
  (put_state st' ≫= k) st = k tt st'.
Proof. rewrite bind_run. apply prepend_nil. Qed.

Lemma ask_bind {A B} (f : W → W * reply A) (k : A → M W B) st :
  (ask f ≫= k) st =
  match (f (world st)).2 with
  | Returns a => k a (set_world (f (world st)).1 st)
  | Fails e => MkRun [] (set_world (f (world st)).1 st) (Raise e)
  end.
Proof.
  rewrite bind_run. unfold ask, continue.
  destruct (f (world st)) as [w [a|e]]; simpl; [apply prepend_nil | done].
Qed.

Lemma ask_total_bind {A B} (f : W → W * A) (k : A → M W B) st :
  (ask_total f ≫= k) st = k (f (world st)).2 (set_world (f (world st)).1 st).
Proof.
  rewrite bind_run. unfold ask_total, continue.
  destruct (f (world st)) as [w a]; simpl. apply prepend_nil.
Qed.

Lemma config_get_bind {B} section key dflt (k : value → M W B) st :
  (config_get env section key dflt ≫= k) st =
  prepend
    [EvConfigGet section key
       (default dflt (cfg_lookup env (world st) section key))]
    (k (default dflt (cfg_lookup env (world st) section key)) st).
Proof.
  unfold config_get.
  rewrite bind_assoc, get_state_bind, bind_assoc, emit_bind, ret_bind.
  reflexivity.
Qed.

Lemma Updater_new_bind {B} v url (k : Updater → M W B) st :
  (Updater_new v url ≫= k) st =
  prepend [EvUpdater (MkUpdater v url)] (k (MkUpdater v url) st).
Proof.
  unfold Updater_new. by rewrite bind_assoc, emit_bind, ret_bind.
Qed.

Lemma Updater_check_bind {B} u (k : option UpdateInfo → M W B) st :
  (Updater_check env u ≫= k) st =
  prepend [EvCheck u]
    match (updater_check env u (world st)).2 with
    | Returns a => k a (set_world (updater_check env u (world st)).1 st)
    | Fails e =>
        MkRun [] (set_world (updater_check env u (world st)).1 st) (Raise e)
    end.
Proof.
  unfold Updater_check. by rewrite bind_assoc, emit_bind, ask_bind.
Qed.

Lemma Updater_download_bind {B} u (k : value → M W B) st :
  (Updater_download env u ≫= k) st =
  prepend [EvDownload u]
    match (updater_download env u (world st)).2 with
    | Returns a => k a (set_world (updater_download env u (world st)).1 st)
    | Fails e =>
        MkRun [] (set_world (updater_download env u (world st)).1 st)
          (Raise e)
    end.
Proof.
  unfold Updater_download. by rewrite bind_assoc, emit_bind, ask_bind.
Qed.

Lemma Updater_install_bind {B} u file (k : value → M W B) st :
  (Updater_install env u file ≫= k) st =
  prepend [EvInstall u file]
    match (updater_install env u file (world st)).2 with
    | Returns a =>
        k a (set_world (updater_install env u file (world st)).1 st)
    | Fails e =>
        MkRun [] (set_world (updater_install env u file (world st)).1 st)
          (Raise e)
    end.
Proof.
  unfold Updater_install. by rewrite bind_assoc, emit_bind, ask_bind.
Qed.

End Equations.


(** ** What a computation never does

    The rules by which [silent], [keeps_timers] and [never_exits] pass
    through the monad, collected in the hint database [frames]. *)

Section Frames.
Context {W : Type} (env : Collab W).
Implicit Types st : state W.
Implicit Types f : event → bool.

(** *** [silent] *)

Lemma silent_ret f {A} (a : A) : silent f (mret a : M W A).
Proof. by intros st. Qed.

Lemma silent_bind f {A B} (m : M W A) (k : A → M W B) :
  silent f m → (∀ a, silent f (k a)) → silent f (m ≫= k).
Proof.
  intros Hm Hk st. rewrite bind_run. unfold continue.
  destruct (r_out (m st)); simpl; rewrite ?List.filter_app, ?Hm; try done.
  apply Hk.
Qed.

Lemma silent_emit f e : f e = false → silent f (emit e : M W unit).
Proof. intros He st; simpl. by rewrite He. Qed.

Lemma silent_raise f {A} e : silent f (raise e : M W A).
Proof. by intros st. Qed.

Lemma silent_sys_exit f {A} c : silent f (sys_exit c : M W A).
Proof. by intros st. Qed.

Lemma silent_get_state f : silent f (get_state : M W (state W)).
Proof. by intros st. Qed.

Lemma silent_put_state f st' : silent f (put_state st' : M W unit).
Proof. by intros st. Qed.

Lemma silent_ask f {A} (g : W → W * reply A) : silent f (ask g).
Proof. intros st. unfold ask. by destruct (g (world st)) as [w [a|e]]. Qed.

Lemma silent_ask_total f {A} (g : W → W * A) : silent f (ask_total g).
Proof. intros st. unfold ask_total. by destruct (g (world st)). Qed.

Lemma silent_try_except_Exception f {A} (body : M W A) handler :
  silent f body → (∀ e, silent f (handler e)) →
  silent f (try_except_Exception body handler).
Proof.
  intros Hb Hh st. unfold try_except_Exception.
  destruct (r_out (body st)); simpl; rewrite ?List.filter_app, ?Hb; try done.
  apply Hh.
Qed.

Lemma silent_try_except_all f {A} (body handler : M W A) :
  silent f body → silent f handler → silent f (try_except_all body handler).
Proof.
  intros Hb Hh st. unfold try_except_all.
  destruct (r_out (body st)); simpl; rewrite ?List.filter_app, ?Hb; try done;
    apply Hh.
Qed.

Lemma silent_slot f (body : M W unit) :
  (∀ e, f (EvExcepthook e) = false) →
  silent f body → silent f (slot body).
Proof.
  intros He Hb. apply silent_try_except_Exception; [done|].
  intros e. by apply silent_emit.
Qed.

(** *** [keeps_timers] *)

Lemma keeps_ret {A} (a : A) : keeps_timers (mret a : M W A).
Proof. by intros st. Qed.

Lemma keeps_bind {A B} (m : M W A) (k : A → M W B) :
  keeps_timers m → (∀ a, keeps_timers (k a)) → keeps_timers (m ≫= k).
Proof.
  intros Hm Hk st. rewrite bind_run. unfold continue.
  destruct (r_out (m st)); simpl; rewrite ?Hk; apply Hm.
Qed.

Lemma keeps_emit e : keeps_timers (emit e : M W unit).
Proof. by intros st. Qed.

Lemma keeps_raise {A} e : keeps_timers (raise e : M W A).
Proof. by intros st. Qed.

Lemma keeps_sys_exit {A} c : keeps_timers (sys_exit c : M W A).
Proof. by intros st. Qed.

Lemma keeps_get_state : keeps_timers (get_state : M W (state W)).
Proof. by intros st. Qed.

Lemma keeps_ask {A} (g : W → W * reply A) : keeps_timers (ask g).
Proof. intros st. unfold ask. by destruct (g (world st)) as [w [a|e]]. Qed.

Lemma keeps_ask_total {A} (g : W → W * A) : keeps_timers (ask_total g).
Proof. intros st. unfold ask_total. by destruct (g (world st)). Qed.

Lemma keeps_try_except_Exception {A} (body : M W A) handler :
  keeps_timers body → (∀ e, keeps_timers (handler e)) →
  keeps_timers (try_except_Exception body handler).
Proof.
  intros Hb Hh st. unfold try_except_Exception.
  destruct (r_out (body st)); simpl; rewrite ?Hh; apply Hb.
Qed.

Lemma keeps_try_except_all {A} (body handler : M W A) :
  keeps_timers body → keeps_timers handler →
  keeps_timers (try_except_all body handler).
Proof.
  intros Hb Hh st. unfold try_except_all.
  destruct (r_out (body st)); simpl; rewrite ?Hh; apply Hb.
Qed.

Lemma keeps_QApplication_new : keeps_timers (QApplication_new : M W unit).
Proof.
  intros st. unfold QApplication_new.
  by rewrite emit_bind, get_state_bind.
Qed.

(** *** [never_exits] *)

Lemma tame_ret {A} (a : A) : never_exits (mret a : M W A).
Proof. by intros st c. Qed.

Lemma tame_bind {A B} (m : M W A) (k : A → M W B) :
  never_exits m → (∀ a, never_exits (k a)) → never_exits (m ≫= k).
Proof.
  intros Hm Hk st c. rewrite bind_run. unfold continue.
  destruct (r_out (m st)) eqn:E; simpl; [apply Hk | done |].
  by apply Hm in E.
Qed.

Lemma tame_emit e : never_exits (emit e : M W unit).
Proof. by intros st c. Qed.

Lemma tame_raise {A} e : never_exits (raise e : M W A).
Proof. by intros st c. Qed.

Lemma tame_get_state : never_exits (get_state : M W (state W)).
Proof. by intros st c. Qed.

Lemma tame_put_state st' : never_exits (put_state st' : M W unit).
Proof. by intros st c. Qed.

Lemma tame_ask {A} (g : W → W * reply A) : never_exits (ask g).
Proof. intros st c. unfold ask. by destruct (g (world st)) as [w [a|e]]. Qed.

Lemma tame_ask_total {A} (g : W → W * A) : never_exits (ask_total g).
Proof. intros st c. unfold ask_total. by destruct (g (world st)). Qed.

Lemma tame_try_except_Exception {A} (body : M W A) handler :
  never_exits body → (∀ e, never_exits (handler e)) →
  never_exits (try_except_Exception body handler).
Proof.
  intros Hb Hh st c. unfold try_except_Exception.
  destruct (r_out (body st)) eqn:E; simpl; rewrite ?E; [done | apply Hh |].
  by apply Hb in E.
Qed.

End Frames.

Create HintDb frames discriminated.

#[global] Hint Resolve silent_ret silent_bind silent_raise silent_sys_exit
  silent_get_state silent_put_state silent_ask silent_ask_total
  silent_try_except_Exception silent_try_except_all : frames.
#[global] Hint Resolve keeps_ret keeps_bind keeps_emit keeps_raise
  keeps_sys_exit keeps_get_state keeps_ask keeps_ask_total
  keeps_try_except_Exception keeps_try_except_all keeps_QApplication_new
  : frames.
#[global] Hint Resolve tame_ret tame_bind tame_emit tame_raise tame_get_state
  tame_put_state tame_ask tame_ask_total tame_try_except_Exception : frames.

(** One step of a proof by the rules: split a branch of the program, or
    apply a rule of the database. *)
Ltac frame_step :=
  match goal with
  | |- context [match ?x with _ => _ end] => destruct x
  | |- ∀ _, _ => intros ?
  | |- silent _ (emit _) => apply silent_emit; reflexivity
  | H : ∀ e, _ = true → ?f e = false |- silent ?f (emit _) =>
      apply silent_emit; apply H; reflexivity
  | |- _ => solve [eauto 2 with frames]
  | |- silent _ (_ ≫= _) => apply silent_bind
  | |- keeps_timers (_ ≫= _) => apply keeps_bind
  | |- never_exits (_ ≫= _) => apply tame_bind
  | |- silent _ (try_except_Exception _ _) => apply silent_try_except_Exception
  | |- keeps_timers (try_except_Exception _ _) =>
      apply keeps_try_except_Exception
  | |- never_exits (try_except_Exception _ _) =>
      apply tame_try_except_Exception
  end.
Ltac frame := repeat frame_step.

(** The functions of the script, opened up to the monad ([fire] apart,
    which recurses). *)
Ltac open_script :=
  unfold main, main_until_show, main_from_check, check_for_updates,
    run_callback, show_update_dialog, dialog_exec, start_update,
    setPlainText, app_exec, singleShot, slot, config_get, expanduser,
    path_exists, makedirs, warning, critical, Updater_new, Updater_check,
    Updater_download, Updater_install, print.

(** ** The frames of the script's functions *)

Section ScriptFrames.
Context {W : Type} (env : Collab W).
Implicit Types st : state W.
Implicit Types f : event → bool.

Lemma tame_QApplication_new : never_exits (QApplication_new : M W unit).
Proof. unfold QApplication_new. frame. Qed.

Lemma tame_check_for_updates : never_exits (check_for_updates env).
Proof. open_script. frame. Qed.

Lemma keeps_check_for_updates : keeps_timers (check_for_updates env).
Proof. open_script. frame. Qed.

Lemma silent_check_for_updates f :
  (∀ e, is_check_part e = true → f e = false) →
  silent f (check_for_updates env).
Proof. intros Hf. open_script. frame. Qed.

Lemma tame_run_callback cb : never_exits (run_callback env cb).
Proof. open_script. frame. Qed.

Lemma silent_run_callback f cb :
  (∀ e, is_dialog_part e = true → f e = false) →
  silent f (run_callback env cb).
Proof. intros Hf. open_script. frame. Qed.

Lemma tame_fire pending : never_exits (fire env pending).
Proof.
  induction pending as [|[msec cb] rest IH]; simpl; [frame|].
  pose proof (tame_run_callback cb). unfold slot. frame.
Qed.

Lemma silent_fire f pending :
  (∀ e, is_update_part e = true → f e = false) →
  silent f (fire env pending).
Proof.
  intros Hf.
  induction pending as [|[msec cb] rest IH]; simpl; [frame|].
  assert (silent f (run_callback env cb)).
  { apply silent_run_callback. intros e He. apply Hf.
    by destruct e. }
  unfold slot. frame.
Qed.

Lemma tame_main : never_exits (main env).
Proof.
  pose proof tame_check_for_updates. pose proof tame_fire.
  pose proof tame_QApplication_new.
  unfold main, app_exec, singleShot, config_get, expanduser, path_exists,
    makedirs, warning.
  frame.
Qed.

Lemma silent_main_from_check f window :
  (∀ e, is_update_part e = true → f e = false) →
  silent f (main_from_check env window).
Proof.
  intros Hf.
  assert (silent f (check_for_updates env)).
  { apply silent_check_for_updates. intros e He. apply Hf.
    by destruct e. }
  pose proof (λ q, silent_fire f q Hf).
  unfold main_from_check, app_exec, singleShot. frame.
Qed.

Lemma keeps_main_until_show : keeps_timers (main_until_show env).
Proof. open_script. frame. Qed.

End ScriptFrames.

(** ** The runs of the script's functions *)

Section ScriptRuns.
Context {W : Type} (env : Collab W).
Implicit Types st : state W.

Lemma continue_prepend {A B} t (r : run W A) (k : A → M W B) :
  continue (prepend t r) k = prepend t (continue r k).
Proof.
  unfold continue, prepend; simpl.
  destruct (r_out r); simpl; by rewrite ?app_assoc.
Qed.

Lemma continue_Normal {A B} t st (a : A) (k : A → M W B) :
  continue (MkRun t st (Normal a)) k = prepend t (k a st).
Proof. reflexivity. Qed.

Lemma continue_Raise {A B} t st e (k : A → M W B) :
  continue (MkRun t st (Raise e)) k = MkRun t st (Raise e).
Proof. reflexivity. Qed.

Lemma set_world_set_world w w' st :
  set_world w (set_world w' st) = set_world w st.
Proof. reflexivity. Qed.

Lemma QApplication_new_bind {B} (k : unit → M W B) st :
  (QApplication_new ≫= k) st =
  prepend [EvQApplication]
    (k tt (MkState (world st) (timers st) true (pyqt_loaded st))).
Proof.
  unfold QApplication_new.
  by rewrite bind_assoc, emit_bind, bind_assoc, get_state_bind,
    put_state_bind.
Qed.

Lemma expanduser_bind {B} s (k : string → M W B) st :
  (expanduser env (VStr s) ≫= k) st = k (os_expanduser env (world st) s) st.
Proof.
  unfold expanduser. by rewrite bind_assoc, get_state_bind, ret_bind.
Qed.

Lemma path_exists_bind {B} path (k : bool → M W B) st :
  (path_exists env path ≫= k) st = k (os_path_exists env (world st) path) st.
Proof.
  unfold path_exists. by rewrite bind_assoc, get_state_bind, ret_bind.
Qed.

Lemma try_makedirs_run path (handler : exn → M W unit) st :
  try_except_Exception (makedirs env path) handler st =
  prepend [EvMakedirs path]
    match (os_makedirs env path (world st)).2 with
    | Returns _ =>
        MkRun [] (set_world (os_makedirs env path (world st)).1 st)
          (Normal tt)
    | Fails e => handler e (set_world (os_makedirs env path (world st)).1 st)
    end.
Proof.
  unfold try_except_Exception, makedirs.
  rewrite bind_run. unfold continue, emit, ask, prepend; simpl.
  destruct (os_makedirs env path (world st)) as [w [[]|e]]; simpl; try done.
Qed.

Lemma warning_run parent title text st :
  warning parent title text st
  = MkRun [EvWarning parent title text] st (Normal tt).
Proof. reflexivity. Qed.

Lemma singleShot_bind {B} msec cb (k : unit → M W B) st :
  (singleShot msec cb ≫= k) st =
  prepend [EvSingleShot msec cb]
    (k tt (MkState (world st) (timers st ++ [(msec, cb)]) (qapp st)
             (pyqt_loaded st))).
Proof.
  unfold singleShot.
  by rewrite bind_assoc, emit_bind, bind_assoc, get_state_bind,
    put_state_bind.
Qed.

(** [check_for_updates], case by case. *)
Lemma check_for_updates_run st :
  check_for_updates env st =
  let w := world st in
  let toggle := configured_check_updates env w in
  if negb (truthy toggle) then
    MkRun [EvConfigGet "app" "check_updates" toggle] st (Normal None)
  else
    let u := check_updater env w in
    let a := updater_check env u w in
    MkRun
      [EvConfigGet "app" "check_updates" toggle;
       EvConfigGet "app" "version" (configured_version env w);
       EvConfigGet "app" "update_url" (configured_update_url env w);
       EvUpdater u; EvCheck u]
      (set_world a.1 st)
      match a.2 with
      | Fails e => Raise e
      | Returns None => Normal None
      | Returns (Some d) =>
          if dict_truthy d then Normal (Some d) else Normal None
      end.
Proof.
  unfold check_for_updates. rewrite config_get_bind.
  fold (configured_check_updates env (world st)).
  destruct (negb (truthy (configured_check_updates env (world st)))); [done|].
  rewrite !config_get_bind.
  rewrite Updater_new_bind, Updater_check_bind.
  fold (configured_version env (world st)).
  fold (configured_update_url env (world st)).
  fold (check_updater env (world st)).
  destruct (updater_check env _ (world st)) as [w [[d|]|e]]; simpl; try done.
  by destruct (dict_truthy d).
Qed.

(** [start_update], case by case. *)
Lemma start_update_run parent st :
  start_update env parent st =
  let u := download_updater env (world st) in
  let d := updater_download env u (world st) in
  prepend
    [EvAccept; EvConfigGet "app" "version" (configured_version env (world st));
     EvUpdater u; EvDownload u]
    match d.2 with
    | Fails e => MkRun [] (set_world d.1 st) (Raise e)
    | Returns update_file =>
        if truthy update_file then
          let i := updater_install env u update_file d.1 in
          match i.2 with
          | Fails e =>
              MkRun [EvInstall u update_file] (set_world i.1 st) (Raise e)
          | Returns result =>
              MkRun
                (EvInstall u update_file ::
                 if negb (truthy result) then
                   [EvWarning (Some parent) "Update Failed"
                      "Failed to install the update. Please try again later."]
                 else [])
                (set_world i.1 st) (Normal tt)
          end
        else MkRun [] (set_world d.1 st) (Normal tt)
    end.
Proof.
  unfold start_update.
  rewrite emit_bind, config_get_bind.
  rewrite Updater_new_bind, Updater_download_bind.
  fold (configured_version env (world st)).
  fold (download_updater env (world st)).
  destruct (updater_download env _ (world st)) as [w1 [file|e]]; simpl;
    [|done].
  destruct (truthy file); [|done].
  rewrite Updater_install_bind. simpl.
  destruct (updater_install env _ file w1) as [w2 [result|e]]; simpl;
    [|done].
  by destruct (truthy result).
Qed.

(** [show_update_dialog] when the offer can be presented. *)
Lemma show_update_dialog_run parent update_info notes st :
  notes_of update_info = Some notes →
  show_update_dialog env parent update_info st =
  let a := dialog_user env (world st) in
  prepend
    (offer_events parent update_info (configured_version env (world st))
       notes)
    match a.2 with
    | ClickUpdateNow => slot (start_update env parent) (set_world a.1 st)
    | _ => MkRun [EvReject] (set_world a.1 st) (Normal tt)
    end.
Proof.
  intros Hnotes. unfold show_update_dialog.
  rewrite !emit_bind, config_get_bind, !emit_bind.
  assert (setPlainText env
            (default (VStr "No release notes available.")
               (update_info !! "release_notes"))
          = emit (EvReleaseNotes notes)) as ->.
  { unfold notes_of in Hnotes. unfold setPlainText.
    destruct (update_info !! "release_notes") as [[]|]; naive_solver. }
  unfold dialog_exec.
  rewrite !emit_bind, ask_total_bind.
  fold (configured_version env (world st)).
  by destruct (dialog_user env (world st)) as [w1 []].
Qed.

(** [show_update_dialog] when the release notes are refused: the
    [TypeError] leaves it while the dialog is being built. *)
Lemma show_update_dialog_refused parent update_info st :
  notes_of update_info = None →
  show_update_dialog env parent update_info st =
  MkRun
    [EvDialog parent;
     EvSetWindowTitle "Update Available";
     EvSetMinimumWidth 400;
     EvSetMinimumHeight 300;
     EvLabel ("<h3>MK Processor "
              +:+ py_str (default VNone (update_info !! "version"))
              +:+ " is available!</h3>");
     EvConfigGet "app" "version" (configured_version env (world st));
     EvLabel ("You are currently using version "
              +:+ py_str (configured_version env (world st)));
     EvLabel "<b>Release Notes:</b>"]
    st
    (Raise (TypeError
              (setPlainText_type_error env
                 (default (VStr "No release notes available.")
                    (update_info !! "release_notes"))))).
Proof.
  intros Hnotes. unfold show_update_dialog.
  rewrite !emit_bind, config_get_bind, !emit_bind.
  unfold notes_of in Hnotes. unfold setPlainText.
  destruct (update_info !! "release_notes") as [[| | |s]|]; try done;
    cbn [default from_option id]; by rewrite raise_bind.
Qed.

(** An offer is presented, that is [dialog.exec_()] is reached, exactly
    when its release notes can be shown: they are a string, [None], or
    missing from the record. *)
Lemma presented_offer parent update_info st :
  EvDialogExec ∈ r_trace (show_update_dialog env parent update_info st)
  ↔ ∃ notes, notes_of update_info = Some notes.
Proof.
  destruct (notes_of update_info) as [notes|] eqn:Hnotes.
  - split; [by exists notes|]. intros _.
    rewrite (show_update_dialog_run parent update_info notes st Hnotes).
    cbv zeta. rewrite r_trace_prepend. apply elem_of_app. left.
    unfold offer_events. apply list_elem_of_In. simpl. tauto.
  - split; [|by intros [notes ?]].
    rewrite (show_update_dialog_refused parent update_info st Hnotes).
    intros Hin. apply list_elem_of_In in Hin. simpl in Hin.
    intuition discriminate.
Qed.

End ScriptRuns.

(** * The update check *)

Section UpdateCheck.
Context {W : Type} (env : Collab W).
Implicit Types st : state W.

(** C3.  When the update-check toggle of the configuration is false (or
    any other falsy value), [check_for_updates] returns [False], "no
    update", after the one configuration read: no [Updater] is constructed,
    none of its steps is invoked, and no collaborator is called at all, so
    the state is the one the function started in. *)
Theorem check_for_updates_disabled st :
  truthy (configured_check_updates env (world st)) = false →
  let r := check_for_updates env st in
  r_out r = Normal None
  ∧ List.filter is_update_client (r_trace r) = []
  ∧ r_trace r =
      [EvConfigGet "app" "check_updates"
         (configured_check_updates env (world st))]
  ∧ r_state r = st.
Proof.
  intros Hoff r. subst r. rewrite check_for_updates_run. cbv zeta.
  by rewrite Hoff.
Qed.

(** C1, as the code has it.  With the toggle on, [check_for_updates] ends
    the way the update client's check ends: an exception the check raises
    is not caught, it leaves [check_for_updates] unchanged; a check that
    returns nothing, or an empty record, gives "no update"; a check that
    returns a record gives that record. *)
Theorem check_for_updates_outcome st :
  truthy (configured_check_updates env (world st)) = true →
  r_out (check_for_updates env st) =
  match (updater_check env (check_updater env (world st)) (world st)).2 with
  | Fails e => Raise e
  | Returns None => Normal None
  | Returns (Some d) =>
      if dict_truthy d then Normal (Some d) else Normal None
  end.
Proof.
  intros Hon. rewrite check_for_updates_run. cbv zeta. by rewrite Hon.
Qed.

End UpdateCheck.

(** The toggle is off in [updates_off]: nothing but the one read happens. *)
Lemma check_for_updates_disabled_witness :
  let r := check_for_updates sim_env (boot (0%nat, updates_off)) in
  r_out r = Normal None
  ∧ List.filter is_update_client (r_trace r) = []
  ∧ r_trace r = [EvConfigGet "app" "check_updates" (VBool false)]
  ∧ r_state r = boot (0%nat, updates_off).
Proof.
  apply (check_for_updates_disabled sim_env (boot (0%nat, updates_off))).
  reflexivity.
Defined.

(** In [sunny] the check returns the record on offer and so does
    [check_for_updates]; in [offline] the check raises and so does
    [check_for_updates]. *)
Lemma check_for_updates_outcome_witness :
  r_out (check_for_updates sim_env (boot (0%nat, sunny)))
  = Normal (Some offer_307)
  ∧ r_out (check_for_updates sim_env (boot (0%nat, offline)))
    = Raise connection_error.
Proof.
  split.
  - apply (check_for_updates_outcome sim_env (boot (0%nat, sunny))).
    reflexivity.
  - apply (check_for_updates_outcome sim_env (boot (0%nat, offline))).
    reflexivity.
Defined.

(** C1 fails on the code.  In [offline] the update client's check raises a
    [ConnectionError]; [check_for_updates] does not return "no update", the
    exception leaves it, leaves [main], and the process ends with status 1. *)
Lemma check_failure_propagates :
  let st := boot (0%nat, offline) in
  (updater_check sim_env (check_updater sim_env (world st)) (world st)).2
  = Fails connection_error
  ∧ r_out (check_for_updates sim_env st) = Raise connection_error
  ∧ r_out (check_for_updates sim_env st) ≠ Normal None
  ∧ r_out (main sim_env st) = Raise connection_error
  ∧ exit_status (python_main sim_env (0%nat, offline)) = 1.
Proof. vm_compute. repeat split; discriminate. Qed.

(** * The update flow *)

Section UpdateFlow.
Context {W : Type} (env : Collab W).
Implicit Types st : state W.

(** C8.  When the offer is presented and the user declines it ("Later", or
    closing the dialog), the dialog is rejected and nothing else happens:
    no [Updater] is constructed, [download_update] and [install_update]
    are not invoked, no warning is shown, nothing is raised, and the flow
    rests in [Declined]. *)
Theorem declined_offer_has_no_effect parent update_info st :
  let r := show_update_dialog env parent update_info st in
  EvDialogExec ∈ r_trace r →
  (dialog_user env (world st)).2 ≠ ClickUpdateNow →
  List.filter is_update_client (r_trace r) = []
  ∧ List.filter is_flow (r_trace r) = []
  ∧ (∃ notes,
       r_trace r =
         offer_events parent update_info (configured_version env (world st))
           notes ++ [EvReject])
  ∧ r_out r = Normal tt
  ∧ r_state r = set_world (dialog_user env (world st)).1 st
  ∧ flow_of (r_trace r) = Declined.
Proof.
  intros r Hpresented Hdecline. subst r.
  apply presented_offer in Hpresented as [notes Hnotes].
  rewrite (show_update_dialog_run env parent update_info notes st Hnotes).
  cbv zeta.
  destruct (dialog_user env (world st)) as [w1 action]; simpl in *.
  destruct action; try done; repeat split; try done; by exists notes.
Qed.

(** C5.  When the offer is accepted and [download_update()] returns a
    falsy value, the download is the only step of the flow: it is invoked
    once, [install_update] is not invoked, no warning is shown and no
    exception is reported or raised; the slot returns and the flow rests
    in [DownloadFailed]. *)
Theorem empty_download_ends_flow parent update_info update_file st :
  let r := show_update_dialog env parent update_info st in
  EvDialogExec ∈ r_trace r →
  (dialog_user env (world st)).2 = ClickUpdateNow →
  let w := (dialog_user env (world st)).1 in
  let u := download_updater env w in
  (updater_download env u w).2 = Returns update_file →
  truthy update_file = false →
  List.filter is_flow (r_trace r) = [EvDownload u]
  ∧ List.filter is_install (r_trace r) = []
  ∧ r_out r = Normal tt
  ∧ flow_of (r_trace r) = DownloadFailed.
Proof.
  intros r Hpresented Haccept w u Hdownload Hfalsy. subst r u w.
  apply presented_offer in Hpresented as [notes Hnotes].
  rewrite (show_update_dialog_run env parent update_info notes st Hnotes).
  cbv zeta. rewrite Haccept.
  unfold slot, try_except_Exception. rewrite start_update_run. cbv zeta.
  simpl world. rewrite Hdownload, Hfalsy. done.
Qed.

(** C6.  When the offer is accepted, [download_update()] returns a truthy
    handle and [install_update] on it returns a falsy value, the flow is:
    one download, one install of that handle, and then the warning
    "Update Failed" with the text "Failed to install the update. Please
    try again later." on the parent window.  Neither step is invoked a
    second time, nothing is raised, and the flow rests in
    [InstallFailed]. *)
Theorem failed_install_warns_once parent update_info update_file result st :
  let r := show_update_dialog env parent update_info st in
  EvDialogExec ∈ r_trace r →
  (dialog_user env (world st)).2 = ClickUpdateNow →
  let w := (dialog_user env (world st)).1 in
  let u := download_updater env w in
  (updater_download env u w).2 = Returns update_file →
  truthy update_file = true →
  (updater_install env u update_file (updater_download env u w).1).2
  = Returns result →
  truthy result = false →
  List.filter is_flow (r_trace r) =
    [EvDownload u; EvInstall u update_file;
     EvWarning (Some parent) "Update Failed"
       "Failed to install the update. Please try again later."]
  ∧ r_out r = Normal tt
  ∧ flow_of (r_trace r) = InstallFailed.
Proof.
  intros r Hpresented Haccept w u Hdownload Htruthy Hinstall Hfalsy.
  subst r u w.
  apply presented_offer in Hpresented as [notes Hnotes].
  rewrite (show_update_dialog_run env parent update_info notes st Hnotes).
  cbv zeta. rewrite Haccept.
  unfold slot, try_except_Exception. rewrite start_update_run. cbv zeta.
  simpl world. rewrite Hdownload, Htruthy. cbv zeta.
  rewrite Hinstall, Hfalsy. done.
Qed.

End UpdateFlow.

Section Versions.
Context {W : Type} (env : Collab W).
Implicit Types st : state W.

(** C9.  The offer and the download each read the version from the
    configuration when they need it.  The label "You are currently using
    version ..." shows the version the store holds in the world in which
    the dialog is built; the [Updater] that downloads is constructed from
    the version the store holds in the world in which the user has
    accepted.  These are the two configuration reads of the flow; no
    version is handed to [show_update_dialog] or to [start_update]. *)
Theorem version_is_read_again parent update_info st :
  let r := show_update_dialog env parent update_info st in
  EvDialogExec ∈ r_trace r →
  (dialog_user env (world st)).2 = ClickUpdateNow →
  let at_prompt := configured_version env (world st) in
  let at_accept := configured_version env (dialog_user env (world st)).1 in
  List.filter is_label (r_trace r) =
    [EvLabel ("<h3>MK Processor "
              +:+ py_str (default VNone (update_info !! "version"))
              +:+ " is available!</h3>");
     EvLabel ("You are currently using version " +:+ py_str at_prompt);
     EvLabel "<b>Release Notes:</b>"]
  ∧ List.filter is_config_get (r_trace r) =
      [EvConfigGet "app" "version" at_prompt;
       EvConfigGet "app" "version" at_accept]
  ∧ List.filter is_download (r_trace r) =
      [EvDownload (MkUpdater at_accept None)].
Proof.
  intros r Hpresented Haccept at_prompt at_accept.
  subst r at_prompt at_accept.
  apply presented_offer in Hpresented as [notes Hnotes].
  rewrite (show_update_dialog_run env parent update_info notes st Hnotes).
  cbv zeta. rewrite Haccept.
  unfold slot, try_except_Exception. rewrite start_update_run. cbv zeta.
  simpl world. unfold download_updater.
  destruct (updater_download env _ _) as [w1 [file|e]]; simpl; [|done].
  destruct (truthy file); simpl; [|done].
  destruct (updater_install env _ _ _) as [w2 [result|e]]; simpl; [|done].
  by destruct (truthy result).
Qed.

(** What the update flow does from the moment the user has accepted is the
    run of [start_update] in the world the open dialog has left; the record
    on offer only decides what the dialog shows before. *)
Lemma accepted_offer_run parent update_info notes st :
  notes_of update_info = Some notes →
  (dialog_user env (world st)).2 = ClickUpdateNow →
  show_update_dialog env parent update_info st =
  prepend
    (offer_events parent update_info (configured_version env (world st))
       notes)
    (slot (start_update env parent)
       (set_world (dialog_user env (world st)).1 st)).
Proof.
  intros Hnotes Haccept.
  rewrite (show_update_dialog_run env parent update_info notes st Hnotes).
  cbv zeta. by rewrite Haccept.
Qed.

Lemma start_update_uses_one_updater parent st :
  Forall (uses_updater (download_updater env (world st)))
    (r_trace (slot (start_update env parent) st)).
Proof.
  unfold slot, try_except_Exception. rewrite start_update_run. cbv zeta.
  destruct (updater_download env _ _) as [w1 [file|e]]; simpl.
  - destruct (truthy file); simpl; [|by repeat constructor].
    destruct (updater_install env _ _ _) as [w2 [result|e]]; simpl;
      [destruct (truthy result); simpl|]; by repeat constructor.
  - by repeat constructor.
Qed.

(** C10.  Two offers that are both presented and both accepted, whatever
    their records hold, are followed by the same update flow: the same
    [Updater] is constructed, the same steps are invoked with the same
    arguments, the same warning (if any) is shown, and the run ends the
    same way in the same state.  Every step uses the one [Updater] that is
    constructed from the configured version alone, without a manifest URL
    and without a field of the record. *)
Theorem download_ignores_update_info parent info1 info2 st :
  let r1 := show_update_dialog env parent info1 st in
  let r2 := show_update_dialog env parent info2 st in
  EvDialogExec ∈ r_trace r1 →
  EvDialogExec ∈ r_trace r2 →
  (dialog_user env (world st)).2 = ClickUpdateNow →
  let u :=
    MkUpdater (configured_version env (dialog_user env (world st)).1) None in
  List.filter is_update_client (r_trace r1)
  = List.filter is_update_client (r_trace r2)
  ∧ List.filter is_flow (r_trace r1) = List.filter is_flow (r_trace r2)
  ∧ r_out r1 = r_out r2
  ∧ r_state r1 = r_state r2
  ∧ Forall (uses_updater u) (r_trace r1)
  ∧ Forall (uses_updater u) (r_trace r2).
Proof.
  intros r1 r2 Hp1 Hp2 Haccept u. subst r1 r2 u.
  apply presented_offer in Hp1 as [notes1 Hn1].
  apply presented_offer in Hp2 as [notes2 Hn2].
  rewrite (accepted_offer_run parent info1 notes1 st Hn1 Haccept).
  rewrite (accepted_offer_run parent info2 notes2 st Hn2 Haccept).
  rewrite !r_trace_prepend, !List.filter_app, !r_out_prepend,
    !r_state_prepend.
  repeat split; try done.
  - apply Forall_app. split; [by repeat constructor|].
    apply (start_update_uses_one_updater parent
             (set_world (dialog_user env (world st)).1 st)).
  - apply Forall_app. split; [by repeat constructor|].
    apply (start_update_uses_one_updater parent
             (set_world (dialog_user env (world st)).1 st)).
Qed.

End Versions.

(** * Bootstrap *)

(** One step of a run: the head of a [≫=] is replaced by what it does. *)
Ltac run_step :=
  first
    [ rewrite bind_assoc
    | rewrite emit_bind
    | rewrite ret_bind
    | rewrite config_get_bind
    | rewrite QApplication_new_bind
    | rewrite expanduser_bind
    | rewrite path_exists_bind
    | rewrite singleShot_bind
    | rewrite ask_bind
    | rewrite ask_total_bind
    | rewrite get_state_bind
    | rewrite put_state_bind
    | rewrite raise_bind
    | rewrite warning_run
    | rewrite continue_prepend
    | rewrite continue_Normal
    | rewrite continue_Raise
    | rewrite prepend_prepend
    | rewrite prepend_MkRun ].

Section Bootstrap.
Context {W : Type} (env : Collab W).
Implicit Types st : state W.

Lemma main_split st :
  main env st = (main_until_show env ≫= main_from_check env) st.
Proof.
  unfold main, main_until_show.
  repeat run_step. cbn [world].
  destruct (default _ (cfg_lookup env (world st) _ _)) as [| | |s];
    try (unfold expanduser; by repeat run_step).
  repeat run_step. cbn [world].
  destruct (os_path_exists env (world st) _); cbn [negb].
  - repeat run_step. cbn [world].
    destruct (os_path_exists env (world st) _); repeat run_step.
    + destruct (plugins_load env _) as [w1 [[]|e]]; cbn [fst snd];
        [by repeat run_step | done].
    + destruct (plugins_load env _) as [w1 [[]|e]]; cbn [fst snd];
        [by repeat run_step | done].
  - rewrite !(bind_run (try_except_Exception _ _)), try_makedirs_run.
    cbn [world].
    destruct (os_makedirs env _ (world st)) as [w0 [[]|e0]]; cbn [fst snd];
      repeat run_step; cbn [world set_world].
    + destruct (os_path_exists env w0 _); repeat run_step;
        cbn [world set_world];
        (destruct (plugins_load env _) as [w1 [[]|e]]; cbn [fst snd];
         [by repeat run_step | done]).
    + destruct (os_path_exists env w0 _); repeat run_step;
        cbn [world set_world];
        (destruct (plugins_load env _) as [w1 [[]|e]]; cbn [fst snd];
         [by repeat run_step | done]).
Qed.

(** When [main] gets as far as [window.show()], the shell has been shown
    once, as the last thing, and nothing has been scheduled. *)
Lemma main_until_show_shown st window :
  r_out (main_until_show env st) = Normal window →
  window = TheMainWindow
  ∧ List.filter is_show_or_sched (r_trace (main_until_show env st))
    = [EvShow].
Proof.
  unfold main_until_show.
  repeat run_step. cbn [world].
  destruct (default _ (cfg_lookup env (world st) _ _)) as [| | |s];
    try (unfold expanduser; by repeat run_step).
  repeat run_step. cbn [world].
  destruct (os_path_exists env (world st) _); cbn [negb].
  - repeat run_step. cbn [world].
    destruct (os_path_exists env (world st) _); repeat run_step;
      (destruct (plugins_load env _) as [w1 [[]|e]]; cbn [fst snd];
       [repeat run_step; unfold prepend; simpl; naive_solver | done]).
  - rewrite !(bind_run (try_except_Exception _ _)), try_makedirs_run.
    cbn [world].
    destruct (os_makedirs env _ (world st)) as [w0 [[]|e0]]; cbn [fst snd];
      repeat run_step; cbn [world set_world];
      (destruct (os_path_exists env w0 _); repeat run_step;
       cbn [world set_world];
       (destruct (plugins_load env _) as [w1 [[]|e]]; cbn [fst snd];
        [repeat run_step; unfold prepend; simpl; naive_solver | done])).
Qed.

(** The run of [main] when it gets as far as [window.show()]. *)
Lemma main_run_shown st window :
  r_out (main_until_show env st) = Normal window →
  main env st =
  prepend (r_trace (main_until_show env st))
    (main_from_check env window (r_state (main_until_show env st))).
Proof.
  intros Hshown. rewrite main_split, bind_run. unfold continue.
  by rewrite Hshown.
Qed.

(** The events of [m ≫= k]: those of [m], then those of [k] when [m]
    returns. *)
Lemma trace_bind {A B} (m : M W A) (k : A → M W B) st :
  r_trace ((m ≫= k) st) =
  r_trace (m st) ++
  match r_out (m st) with
  | Normal a => r_trace (k a (r_state (m st)))
  | _ => []
  end.
Proof.
  rewrite bind_run. unfold continue.
  destruct (r_out (m st)); simpl; by rewrite ?app_nil_r.
Qed.

(** The run of the event loop with one timer pending. *)
Lemma app_exec_one_timer msec cb st :
  timers st = [(msec, cb)] →
  List.filter is_show_or_sched (r_trace (app_exec env st)) =
  if (loop_wait env msec (world st)).2 then [EvTimeout cb] else [].
Proof.
  intros Htimers. unfold app_exec.
  rewrite emit_bind, get_state_bind, put_state_bind, Htimers.
  rewrite r_trace_prepend, trace_bind. cbn [fire].
  rewrite ask_total_bind. cbn [world].
  destruct (loop_wait env msec (world st)) as [w1 running]; cbn [fst snd].
  set (s1 := set_world w1 _).
  assert (∀ s, r_trace (ask_total (loop_quit env) s) = []) as Hquit.
  { intros s. unfold ask_total. by destruct (loop_quit env (world s)). }
  destruct running.
  - rewrite emit_bind, !r_out_prepend, !r_state_prepend, r_trace_prepend.
    rewrite trace_bind. cbn [fire].
    assert (silent is_show_or_sched (slot (run_callback env cb))) as Hslot.
    { apply silent_slot; [done|].
      apply silent_run_callback. by intros []. }
    rewrite !List.filter_app, (Hslot s1).
    destruct (r_out (slot (run_callback env cb) s1)); simpl;
      destruct (r_out (_ s1)); simpl; by rewrite ?Hquit.
  - simpl. by rewrite Hquit.
Qed.

(** The run of the event loop with no timer pending. *)
Lemma app_exec_no_timer st :
  timers st = [] →
  List.filter is_show_or_sched (r_trace (app_exec env st)) = [].
Proof.
  intros Htimers. unfold app_exec.
  rewrite emit_bind, get_state_bind, put_state_bind, Htimers.
  cbn [fire]. rewrite ret_bind. unfold ask_total, prepend.
  by destruct (loop_quit env _).
Qed.

(** C2.  In a run of [main] that gets as far as [window.show()] and in
    which [check_for_updates] returns, the shell is shown once and
    - when the check returns a record, [QTimer.singleShot] is called once,
      after [show()], with a delay of 1000 ms and the callback that opens
      the offer for that record on the shown window; the callback runs at
      most once, after it was scheduled, and it does run when the event
      loop is still running after the delay;
    - when the check returns "no update", nothing is scheduled and
      nothing fires. *)
Theorem notification_is_scheduled_once st window res :
  timers st = [] →
  r_out (main_until_show env st) = Normal window →
  let st1 := r_state (main_until_show env st) in
  r_out (check_for_updates env st1) = Normal res →
  let st2 := r_state (check_for_updates env st1) in
  List.filter is_show_or_sched (r_trace (main env st)) =
  match res with
  | Some d =>
      let cb := CbShowUpdateDialog window d in
      [EvShow; EvSingleShot 1000 cb]
      ++ (if (loop_wait env 1000 (world st2)).2 then [EvTimeout cb] else [])
  | None => [EvShow]
  end.
Proof.
  intros Htimers Hshown st1 Hcheck st2.
  destruct (main_until_show_shown st window Hshown) as [-> Hshow].
  rewrite (main_run_shown st TheMainWindow Hshown).
  rewrite r_trace_prepend, List.filter_app, Hshow.
  fold st1. unfold main_from_check.
  rewrite trace_bind, Hcheck, List.filter_app.
  rewrite (silent_check_for_updates env is_show_or_sched); [|by intros []].
  fold st2.
  assert (timers st2 = []) as Hnone.
  { subst st2 st1.
    by rewrite keeps_check_for_updates, keeps_main_until_show. }
  destruct res as [d|]; cbn [app].
  - rewrite singleShot_bind, r_trace_prepend, List.filter_app.
    rewrite (app_exec_one_timer 1000 (CbShowUpdateDialog TheMainWindow d));
      [done | simpl; by rewrite Hnone].
  - rewrite ret_bind, app_exec_no_timer; done.
Qed.

(** The text of the "Directory Warning", written out. *)
Lemma directory_warning_text_eq web_folder e :
  directory_warning_text web_folder e =
  "Could not create web folder at " +:+ web_folder +:+ ".

Error: " +:+ exn_msg e +:+ "

The application will continue, but functionality may be limited.".
Proof. reflexivity. Qed.

(** C4, as the code has it.  In a run of [main] in which the web folder
    does not exist and [os.makedirs] fails with [e], the exception is
    caught on the spot and the warning "Directory Warning" is shown, whose
    text is "Could not create web folder at <folder>.", a blank line,
    "Error: <str(e)>", a blank line, and the promise to continue; the run
    then goes on to load the plugins.  What follows depends on them: when
    they load, the shell is constructed once and shown once in the whole
    run; when loading them raises, the shell is never constructed and the
    exception leaves [main]. *)
Theorem unwritable_folder_is_not_fatal st s e :
  default (VStr "~/GoogleDriveMount/Web/")
    (cfg_lookup env (world st) "google_drive" "web_folder") = VStr s →
  let web_folder := os_expanduser env (world st) s in
  os_path_exists env (world st) web_folder = false →
  (os_makedirs env web_folder (world st)).2 = Fails e →
  let text :=
    "Could not create web folder at " +:+ web_folder +:+ ".

Error: " +:+ exn_msg e +:+ "

The application will continue, but functionality may be limited." in
  let plugins :=
    (plugins_load env (os_makedirs env web_folder (world st)).1).2 in
  List.filter is_bootstrap (r_trace (main env st)) =
    [EvMakedirs web_folder;
     EvWarning None "Directory Warning" text;
     EvLoadPlugins]
    ++ match plugins with
       | Returns _ => [EvMainWindow; EvShow]
       | Fails _ => []
       end
  ∧ r_out (main_until_show env st) =
      match plugins with
      | Returns _ => Normal TheMainWindow
      | Fails e' => Raise e'
      end
  ∧ (∀ e', plugins = Fails e' → r_out (main env st) = Raise e').
Proof.
  intros Hfolder web_folder Habsent Hmakedirs text plugins.
  assert (r_out (main_until_show env st) =
            match plugins with
            | Returns _ => Normal TheMainWindow
            | Fails e' => Raise e'
            end
          ∧ List.filter is_bootstrap (r_trace (main_until_show env st)) =
            [EvMakedirs web_folder;
             EvWarning None "Directory Warning" text;
             EvLoadPlugins]
            ++ match plugins with
               | Returns _ => [EvMainWindow; EvShow]
               | Fails _ => []
               end) as [Hout Htrace].
  { subst plugins text. rewrite <- directory_warning_text_eq.
    unfold main_until_show.
    repeat run_step. cbn [world]. rewrite Hfolder.
    repeat run_step. cbn [world]. fold web_folder. rewrite Habsent.
    cbn [negb].
    rewrite !(bind_run (try_except_Exception _ _)), try_makedirs_run.
    cbn [world]. rewrite Hmakedirs.
    repeat run_step. cbn [world set_world].
    destruct (os_path_exists env (os_makedirs env web_folder (world st)).1 _);
      repeat run_step; cbn [world set_world];
      (destruct (plugins_load env _) as [w1 [[]|e']]; cbn [fst snd];
       by repeat run_step). }
  split; [|split; [exact Hout|]].
  2: { intros e' Hfails. rewrite Hfails in Hout.
       rewrite main_split, bind_run. unfold continue. by rewrite Hout. }
  rewrite main_split, trace_bind, List.filter_app, Htrace.
  assert (List.filter is_bootstrap
            match r_out (main_until_show env st) with
            | Normal a =>
                r_trace (main_from_check env a
                           (r_state (main_until_show env st)))
            | _ => []
            end = []) as ->; [|by rewrite app_nil_r].
  destruct (r_out (main_until_show env st)); try done.
  apply (silent_main_from_check env is_bootstrap).
  intros ev Hev. destruct ev; try done.
  match goal with parent : option widget |- _ => by destruct parent end.
Qed.

End Bootstrap.

(** * The process *)

Section Process.
Context {W : Type} (env : Collab W).
Implicit Types st : state W.

(** A bare [except: pass] leaves nothing behind. *)
Lemma try_except_all_pass (body : M W unit) st :
  r_out (try_except_all body (mret tt) st) = Normal tt.
Proof.
  unfold try_except_all.
  by destruct (r_out (body st)) as [[]| |] eqn:Hbody; simpl; rewrite ?Hbody.
Qed.

Lemma try_ask_run {A} (f : W → W * reply A) (handler : exn → M W A) st :
  try_except_Exception (ask f) handler st =
  match (f (world st)).2 with
  | Returns a => MkRun [] (set_world (f (world st)).1 st) (Normal a)
  | Fails e => handler e (set_world (f (world st)).1 st)
  end.
Proof.
  unfold try_except_Exception, ask.
  destruct (f (world st)) as [w [a|e]]; simpl; [done|].
  by destruct (handler e _).
Qed.

(** How [m ≫= k] and a [try] end. *)
Lemma out_bind {A B} (m : M W A) (k : A → M W B) st :
  r_out ((m ≫= k) st) =
  match r_out (m st) with
  | Normal a => r_out (k a (r_state (m st)))
  | Raise e => Raise e
  | SysExit c => SysExit c
  end.
Proof. rewrite bind_run. unfold continue. by destruct (r_out (m st)). Qed.

Lemma out_try_except_Exception {A} (body : M W A) handler st :
  r_out (try_except_Exception body handler st) =
  match r_out (body st) with
  | Normal a => Normal a
  | Raise e => r_out (handler e (r_state (body st)))
  | SysExit c => SysExit c
  end.
Proof.
  unfold try_except_Exception.
  by destruct (r_out (body st)) eqn:Hbody; simpl; rewrite ?Hbody.
Qed.

(** The handler of lines 168-189 always ends in [sys.exit(1)], whether the
    error dialog can be shown or not. *)
Lemma wrapper_handler_exits (body : M W unit) line1 line2 st :
  r_out
    ((print line1;; print line2;; try_except_all body (mret tt);; sys_exit 1)
       st) = SysExit 1 (A := unit).
Proof.
  unfold print. rewrite !emit_bind, !r_out_prepend, bind_run.
  unfold continue. by rewrite try_except_all_pass.
Qed.

(** The wrapper turns the way [main] ends into the way the script ends:
    the code [main] returns is the code of [sys.exit]; an exception that
    leaves [main] ends in [sys.exit(1)]. *)
Lemma entry_point_out st :
  r_out (entry_point env st) =
  match r_out (main env st) with
  | Normal code => SysExit code
  | Raise _ => SysExit 1
  | SysExit code => SysExit code
  end.
Proof.
  unfold entry_point. rewrite out_try_except_Exception, out_bind.
  destruct (r_out (main env st)) as [code|e|code]; try reflexivity.
  apply wrapper_handler_exits.
Qed.

(** The import guard: nothing happens when the modules load; when they do
    not, the guard ends in [sys.exit(1)], or in the exception that showing
    the dialog raised. *)
Lemma import_guard_run st :
  pyqt_loaded st = true →
  match (import_modules env (world st)).2 with
  | Returns _ =>
      import_guard env st =
      MkRun [] (set_world (import_modules env (world st)).1 st) (Normal tt)
  | Fails _ =>
      r_out (import_guard env st) = SysExit 1
      ∨ ∃ e', r_out (import_guard env st) = Raise e'
  end.
Proof.
  intros Hloaded. unfold import_guard. rewrite try_ask_run.
  destruct (import_modules env (world st)) as [w1 [[]|e]]; cbn [fst snd];
    [reflexivity|].
  unfold print, critical.
  rewrite !emit_bind, !r_out_prepend, get_state_bind.
  change (pyqt_loaded (set_world w1 st)) with (pyqt_loaded st).
  rewrite Hloaded, out_bind, QApplication_new_bind, r_out_prepend.
  rewrite emit_bind, r_out_prepend. unfold ask.
  destruct (critical_exec env _) as [w2 [[]|e']]; cbn [r_out].
  - by left.
  - right. by exists e'.
Qed.




End Process.

(** * The theorems at work on the scripted world *)

(** An event is in a run that can be computed. *)
Ltac in_trace := apply list_elem_of_In; vm_compute; tauto.

(** [not_now]: the user clicks "Later". *)
Lemma declined_offer_has_no_effect_witness :
  let r :=
    show_update_dialog sim_env TheMainWindow offer_307
      (prompt_state not_now) in
  (dialog_user sim_env (world (prompt_state not_now))).2 = ClickLater
  ∧ List.filter is_update_client (r_trace r) = []
  ∧ r_out r = Normal tt
  ∧ flow_of (r_trace r) = Declined.
Proof.
  split; [reflexivity|].
  destruct (declined_offer_has_no_effect sim_env TheMainWindow offer_307
              (prompt_state not_now)) as (H1 & _ & _ & H4 & _ & H6).
  - in_trace.
  - simpl. discriminate.
  - exact (conj H1 (conj H4 H6)).
Defined.

(** [download_empty]: [download_update()] returns [None]. *)
Lemma empty_download_ends_flow_witness :
  let r :=
    show_update_dialog sim_env TheMainWindow offer_307
      (prompt_state download_empty) in
  List.filter is_flow (r_trace r) = [EvDownload (MkUpdater (VStr "3.0.6") None)]
  ∧ List.filter is_install (r_trace r) = []
  ∧ r_out r = Normal tt
  ∧ flow_of (r_trace r) = DownloadFailed.
Proof.
  apply (empty_download_ends_flow sim_env TheMainWindow offer_307
           VNone (prompt_state download_empty));
    [in_trace | reflexivity..].
Defined.

(** [install_refused]: [install_update] returns [False]. *)
Lemma failed_install_warns_once_witness :
  let r :=
    show_update_dialog sim_env TheMainWindow offer_307
      (prompt_state install_refused) in
  List.filter is_flow (r_trace r) =
    [EvDownload (MkUpdater (VStr "3.0.6") None);
     EvInstall (MkUpdater (VStr "3.0.6") None) (VStr "/tmp/mk_update.zip");
     EvWarning (Some TheMainWindow) "Update Failed"
       "Failed to install the update. Please try again later."]
  ∧ r_out r = Normal tt
  ∧ flow_of (r_trace r) = InstallFailed.
Proof.
  apply (failed_install_warns_once sim_env TheMainWindow offer_307
           (VStr "/tmp/mk_update.zip") (VBool false)
           (prompt_state install_refused));
    [in_trace | reflexivity..].
Defined.

(** [version_moves]: the store holds 3.0.7 when the offer opens and 3.0.8
    when it is accepted. *)
Lemma version_is_read_again_witness :
  let r :=
    show_update_dialog sim_env TheMainWindow offer_307
      (prompt_state version_moves) in
  List.filter is_label (r_trace r) =
    [EvLabel "<h3>MK Processor 3.0.7 is available!</h3>";
     EvLabel "You are currently using version 3.0.7";
     EvLabel "<b>Release Notes:</b>"]
  ∧ List.filter is_config_get (r_trace r) =
      [EvConfigGet "app" "version" (VStr "3.0.7");
       EvConfigGet "app" "version" (VStr "3.0.8")]
  ∧ List.filter is_download (r_trace r) =
      [EvDownload (MkUpdater (VStr "3.0.8") None)].
Proof.
  apply (version_is_read_again sim_env TheMainWindow offer_307
           (prompt_state version_moves));
    [in_trace | reflexivity].
Defined.

(** The whole run of [version_moves]: the check is made for 3.0.6, the
    offer shows 3.0.7, the download is made for 3.0.8. *)
Example version_moves_run :
  let t := r_trace (python_main sim_env (0%nat, version_moves)) in
  List.filter (λ e, is_update_client e) t =
    [EvUpdater
       (MkUpdater (VStr "3.0.6")
          (Some (VStr "https://example.com/updates/mk_processor.json")));
     EvCheck
       (MkUpdater (VStr "3.0.6")
          (Some (VStr "https://example.com/updates/mk_processor.json")));
     EvUpdater (MkUpdater (VStr "3.0.8") None);
     EvDownload (MkUpdater (VStr "3.0.8") None);
     EvInstall (MkUpdater (VStr "3.0.8") None) (VStr "/tmp/mk_update.zip")]
  ∧ List.filter is_label t =
      [EvLabel "<h3>MK Processor 3.0.7 is available!</h3>";
       EvLabel "You are currently using version 3.0.7";
       EvLabel "<b>Release Notes:</b>"].
Proof. by vm_compute. Qed.

(** The same release offered without notes, and with notes and another
    download reference. *)
Lemma download_ignores_update_info_witness :
  let r1 :=
    show_update_dialog sim_env TheMainWindow offer_307_no_notes
      (prompt_state sunny) in
  let r2 :=
    show_update_dialog sim_env TheMainWindow offer_307_mirror
      (prompt_state sunny) in
  let u := MkUpdater (VStr "3.0.6") None in
  offer_307_no_notes ≠ offer_307_mirror
  ∧ List.filter is_update_client (r_trace r1)
    = List.filter is_update_client (r_trace r2)
  ∧ List.filter is_flow (r_trace r1) = List.filter is_flow (r_trace r2)
  ∧ r_out r1 = r_out r2
  ∧ r_state r1 = r_state r2
  ∧ Forall (uses_updater u) (r_trace r1)
  ∧ Forall (uses_updater u) (r_trace r2).
Proof.
  split.
  - intros Heq.
    assert (offer_307_no_notes !! "release_notes"
            = offer_307_mirror !! "release_notes")
      as Hnotes by (by rewrite Heq).
    vm_compute in Hnotes. discriminate.
  - apply (download_ignores_update_info sim_env TheMainWindow
             offer_307_no_notes offer_307_mirror (prompt_state sunny));
      [in_trace | in_trace | reflexivity].
Defined.

(** [sunny]: the offer is scheduled once and its timer fires once;
    [up_to_date]: nothing is scheduled. *)
Lemma notification_is_scheduled_once_witness :
  List.filter is_show_or_sched (r_trace (main sim_env (boot (0%nat, sunny))))
  = [EvShow;
     EvSingleShot 1000 (CbShowUpdateDialog TheMainWindow offer_307);
     EvTimeout (CbShowUpdateDialog TheMainWindow offer_307)]
  ∧ List.filter is_show_or_sched
      (r_trace (main sim_env (boot (0%nat, up_to_date))))
    = [EvShow].
Proof.
  split.
  - apply (notification_is_scheduled_once sim_env (boot (0%nat, sunny))
             TheMainWindow (Some offer_307)); reflexivity.
  - apply (notification_is_scheduled_once sim_env (boot (0%nat, up_to_date))
             TheMainWindow None); reflexivity.
Defined.

(** [readonly_disk]: [/srv/web] is missing and [os.makedirs] is refused. *)
Lemma unwritable_folder_is_not_fatal_witness :
  os_path_exists sim_env (0%nat, readonly_disk) "/srv/web" = false
  ∧ (os_makedirs sim_env "/srv/web" (0%nat, readonly_disk)).2
    = Fails permission_error
  ∧ List.filter is_bootstrap
      (r_trace (main sim_env (boot (0%nat, readonly_disk))))
    = [EvMakedirs "/srv/web";
       EvWarning None "Directory Warning"
         "Could not create web folder at /srv/web.

Error: [Errno 13] Permission denied: '/srv/web'

The application will continue, but functionality may be limited.";
       EvLoadPlugins; EvMainWindow; EvShow]
  ∧ r_out (main_until_show sim_env (boot (0%nat, readonly_disk)))
    = Normal TheMainWindow.
Proof.
  split; [reflexivity|]. split; [reflexivity|].
  destruct (unwritable_folder_is_not_fatal sim_env
              (boot (0%nat, readonly_disk)) "/srv/web" permission_error)
    as (Hevents & Hshown & _).
  - reflexivity.
  - reflexivity.
  - reflexivity.
  - exact (conj Hevents Hshown).
Defined.

(** C4, as it is stated, fails in [readonly_disk_bad_plugin]: the folder is
    missing, [os.makedirs] is refused and the warning is shown, but then a
    plugin cannot be loaded; the shell is never constructed or shown, and
    the exception leaves [main]. *)
Lemma unwritable_folder_then_failing_plugins :
  let w := (0%nat, readonly_disk_bad_plugin) in
  let r := main sim_env (boot w) in
  os_path_exists sim_env w "/srv/web" = false
  ∧ (os_makedirs sim_env "/srv/web" w).2 = Fails permission_error
  ∧ List.filter is_warning (r_trace r) =
      [EvWarning None "Directory Warning"
         "Could not create web folder at /srv/web.

Error: [Errno 13] Permission denied: '/srv/web'

The application will continue, but functionality may be limited."]
  ∧ List.filter is_shell (r_trace r) = []
  ∧ r_out r = Raise plugin_error.
Proof. by vm_compute. Qed.



(** [headless_crash]: a plugin fails to load.  The shell is never shown, the
    error is printed and the error dialog is attempted; the process ends
    with status 1 although the dialog could not be shown. *)
Example headless_crash_run :
  let r := python_main sim_env (0%nat, headless_crash) in
  List.filter is_bootstrap (r_trace r) = [EvLoadPlugins]
  ∧ List.filter (λ e, match e with EvCritical _ _ _ => true | _ => false end)
      (r_trace r)
    = [EvCritical "Application Error"
         "An unhandled error occurred: No module named 'yaml'"
         (format_exc sim_env plugin_error)]
  ∧ r_out r = SysExit 1.
Proof. by vm_compute. Qed.

(** * More of the bootstrap *)

Section Startup.
Context {W : Type} (env : Collab W).
Implicit Types st : state W.

(** Lines 62-97, case by case: the folder entry is a string or not; the
    folder is there, or is created, or cannot be; the icon is there or not;
    the plugins load or not. *)
Lemma main_until_show_run st :
  main_until_show env st =
  let st0 := MkState (world st) (timers st) true (pyqt_loaded st) in
  let folder :=
    default (VStr "~/GoogleDriveMount/Web/")
      (cfg_lookup env (world st) "google_drive" "web_folder") in
  prepend
    [EvQApplication; EvSetApplicationName "MK Processor";
     EvSetApplicationVersion "3.0.6"; EvSetupExceptionHandling;
     EvConfigGet "google_drive" "web_folder" folder]
    match folder with
    | VStr s =>
        let web_folder := os_expanduser env (world st) s in
        let mk := os_makedirs env web_folder (world st) in
        let dir :=
          if os_path_exists env (world st) web_folder then ([], world st)
          else
            (EvMakedirs web_folder ::
             match mk.2 with
             | Returns _ => []
             | Fails e =>
                 [EvWarning None "Directory Warning"
                    (directory_warning_text web_folder e)]
             end, mk.1) in
        let icon_path :=
          os_path_join env (app_dir env)
            ["resources"; "icons"; "app_icon.png"] in
        let pl := plugins_load env dir.2 in
        MkRun
          (dir.1
           ++ (if os_path_exists env dir.2 icon_path
               then [EvSetWindowIcon icon_path] else [])
           ++ [EvPluginManager; EvLoadPlugins]
           ++ match pl.2 with
              | Returns _ => [EvMainWindow; EvShow]
              | Fails _ => []
              end)
          (set_world pl.1 st0)
          match pl.2 with
          | Returns _ => Normal TheMainWindow
          | Fails e => Raise e
          end
    | v =>
        MkRun [] st0
          (Raise (TypeError ("expected str, bytes or os.PathLike object, not "
                             +:+ type_name v)))
    end.
Proof.
  unfold main_until_show.
  repeat run_step. cbn [world]. cbv zeta.
  destruct (default _ (cfg_lookup env (world st) _ _)) as [| | |s];
    try (unfold expanduser; by repeat run_step).
  repeat run_step. cbn [world].
  destruct (os_path_exists env (world st) _); cbn [negb fst snd].
  - repeat run_step. cbn [world].
    destruct (os_path_exists env (world st) _); repeat run_step;
      (destruct (plugins_load env _) as [w1 [[]|e]]; cbn [fst snd];
       by repeat run_step).
  - rewrite !(bind_run (try_except_Exception _ _)), try_makedirs_run.
    cbn [world].
    destruct (os_makedirs env _ (world st)) as [w0 [[]|e0]]; cbn [fst snd];
      repeat run_step; cbn [world set_world];
      (destruct (os_path_exists env w0 _); repeat run_step;
       cbn [world set_world];
       (destruct (plugins_load env _) as [w1 [[]|e]]; cbn [fst snd];
        by repeat run_step)).
Qed.


(** One case of the startup at a time. *)
Ltac startup_cases :=
  rewrite main_until_show_run; cbv zeta;
  repeat case_match; simplify_eq; cbn [fst snd r_trace r_out r_state prepend].

Lemma main_until_show_shell st :
  List.filter is_shell (r_trace (main_until_show env st)) =
  match r_out (main_until_show env st) with
  | Normal _ => [EvMainWindow; EvShow]
  | _ => []
  end.
Proof. startup_cases; rewrite ?List.filter_app; by simpl. Qed.

Lemma main_until_show_quiet st :
  List.filter is_update_activity (r_trace (main_until_show env st)) = [].
Proof. startup_cases; rewrite ?List.filter_app; by simpl. Qed.

Lemma main_until_show_ends_with_show st window :
  r_out (main_until_show env st) = Normal window →
  ∃ before, r_trace (main_until_show env st) = before ++ [EvShow].
Proof.
  intros Hout. apply last_Some. revert Hout.
  startup_cases; intros; by simplify_eq.
Qed.

(** [main] when the startup raises: nothing follows. *)
Lemma main_run_failed st e :
  r_out (main_until_show env st) = Raise e →
  r_trace (main env st) = r_trace (main_until_show env st)
  ∧ r_out (main env st) = Raise e.
Proof.
  intros Hfailed. rewrite main_split, bind_run. unfold continue.
  by rewrite Hfailed.
Qed.

(** X1.  In every run of [main] the shell is constructed and shown at most
    once: once, window first and [show()] next, when the startup of lines
    62-97 completes, and not at all when it raises. *)
Theorem shell_is_shown_iff_startup_completes st :
  List.filter is_shell (r_trace (main env st)) =
  match r_out (main_until_show env st) with
  | Normal _ => [EvMainWindow; EvShow]
  | _ => []
  end.
Proof.
  rewrite main_split, trace_bind, List.filter_app, main_until_show_shell.
  destruct (r_out (main_until_show env st)) as [window| |]; try done.
  rewrite (silent_main_from_check env is_shell); [done|].
  intros ev Hev. destruct ev; try done.
Qed.

(** X2.  Whatever [main] does for the update feature (constructing or
    calling the update client, scheduling the notification, its timer
    firing, building or answering the offer) comes after [window.show()]:
    each such event of a run has [EvShow] before it. *)
Theorem update_activity_follows_show st t1 e t2 :
  r_trace (main env st) = t1 ++ e :: t2 →
  is_update_activity e = true →
  EvShow ∈ t1.
Proof.
  intros Hsplit He.
  rewrite main_split, trace_bind in Hsplit.
  pose proof (main_until_show_quiet st) as Hquiet.
  pose proof (main_until_show_ends_with_show st) as Hshow.
  set (rest := match r_out (main_until_show env st) with
               | Normal a => _ | _ => [] end) in Hsplit.
  assert (rest ≠ [] → EvShow ∈ r_trace (main_until_show env st)) as Hrest.
  { subst rest. destruct (r_out (main_until_show env st)) as [window| |];
      try done.
    intros _. destruct (Hshow window eq_refl) as [before ->].
    set_solver. }
  symmetry in Hsplit. apply List.app_eq_app in Hsplit as [l Hl].
  destruct Hl as [[-> Hrest'] | [Hfirst Hrest']].
  - apply elem_of_app. left. apply Hrest. rewrite Hrest'. by destruct l.
  - destruct l as [|x l].
    + rewrite app_nil_r in Hfirst. subst t1. apply Hrest.
      simpl in Hrest'. by rewrite <- Hrest'.
    + simpl in Hrest'. injection Hrest' as <- _.
      rewrite Hfirst, List.filter_app in Hquiet. simpl in Hquiet.
      rewrite He in Hquiet. by destruct (List.filter _ t1).
Qed.

(** X3.  A folder entry of the configuration that is not a string is
    fatal: [os.path.expanduser] raises a [TypeError] that nothing in [main]
    catches; no folder is created, no plugin is loaded, no shell is shown. *)
Theorem folder_entry_must_be_a_string st :
  let folder :=
    default (VStr "~/GoogleDriveMount/Web/")
      (cfg_lookup env (world st) "google_drive" "web_folder") in
  (∀ s, folder ≠ VStr s) →
  r_out (main env st) =
    Raise (TypeError ("expected str, bytes or os.PathLike object, not "
                      +:+ type_name folder))
  ∧ r_trace (main env st) =
      [EvQApplication; EvSetApplicationName "MK Processor";
       EvSetApplicationVersion "3.0.6"; EvSetupExceptionHandling;
       EvConfigGet "google_drive" "web_folder" folder].
Proof.
  intros folder Hnot.
  assert (main_until_show env st =
          MkRun
            [EvQApplication; EvSetApplicationName "MK Processor";
             EvSetApplicationVersion "3.0.6"; EvSetupExceptionHandling;
             EvConfigGet "google_drive" "web_folder" folder]
            (MkState (world st) (timers st) true (pyqt_loaded st))
            (Raise (TypeError
                      ("expected str, bytes or os.PathLike object, not "
                       +:+ type_name folder)))) as Hrun.
  { rewrite main_until_show_run. cbv zeta. fold folder.
    destruct folder as [| | |s]; try done. by destruct (Hnot s). }
  destruct (main_run_failed st _ (f_equal r_out Hrun)) as [-> ->].
  by rewrite Hrun.
Qed.

(** The folder step in the events of [main]. *)
Lemma main_directory_events st s :
  default (VStr "~/GoogleDriveMount/Web/")
    (cfg_lookup env (world st) "google_drive" "web_folder") = VStr s →
  let web_folder := os_expanduser env (world st) s in
  List.filter is_directory (r_trace (main env st)) =
  if os_path_exists env (world st) web_folder then []
  else
    EvMakedirs web_folder ::
    match (os_makedirs env web_folder (world st)).2 with
    | Returns _ => []
    | Fails e =>
        [EvWarning None "Directory Warning"
           (directory_warning_text web_folder e)]
    end.
Proof.
  intros Hfolder web_folder.
  rewrite main_split, trace_bind, List.filter_app.
  assert (List.filter is_directory
            match r_out (main_until_show env st) with
            | Normal a =>
                r_trace (main_from_check env a
                           (r_state (main_until_show env st)))
            | _ => []
            end = []) as ->.
  { destruct (r_out (main_until_show env st)); try done.
    apply (silent_main_from_check env is_directory).
    intros ev Hev. destruct ev; try done.
    match goal with parent : option widget |- _ => by destruct parent end. }
  rewrite app_nil_r, main_until_show_run. cbv zeta. rewrite Hfolder.
  fold web_folder.
  repeat case_match; simplify_eq;
    cbn [fst snd r_trace prepend]; rewrite ?List.filter_app; by simpl.
Qed.

(** X4.  [os.makedirs] is called only when the web folder does not exist,
    and the "Directory Warning" is shown only when that call fails, with
    the text "Could not create web folder at <folder>.", a blank line,
    "Error: <str(e)>", a blank line, and the promise to continue: these
    are the only events of the kind in a run of [main]. *)
Theorem folder_is_created_only_when_missing st s :
  default (VStr "~/GoogleDriveMount/Web/")
    (cfg_lookup env (world st) "google_drive" "web_folder") = VStr s →
  let web_folder := os_expanduser env (world st) s in
  List.filter is_directory (r_trace (main env st)) =
  if os_path_exists env (world st) web_folder then []
  else
    EvMakedirs web_folder ::
    match (os_makedirs env web_folder (world st)).2 with
    | Returns _ => []
    | Fails e =>
        [EvWarning None "Directory Warning"
           ("Could not create web folder at " +:+ web_folder +:+ ".

Error: " +:+ exn_msg e +:+ "

The application will continue, but functionality may be limited.")]
    end.
Proof. exact (main_directory_events st s). Qed.

(** X5.  A failure of [load_plugins] is fatal: the exception leaves [main]
    as it is, right after the call; the shell is not constructed and the
    update feature is not touched. *)
Theorem plugin_failure_is_fatal st s e :
  default (VStr "~/GoogleDriveMount/Web/")
    (cfg_lookup env (world st) "google_drive" "web_folder") = VStr s →
  let web_folder := os_expanduser env (world st) s in
  let w :=
    if os_path_exists env (world st) web_folder then world st
    else (os_makedirs env web_folder (world st)).1 in
  (plugins_load env w).2 = Fails e →
  r_out (main env st) = Raise e
  ∧ last (r_trace (main env st)) = Some EvLoadPlugins
  ∧ List.filter is_shell (r_trace (main env st)) = []
  ∧ List.filter is_update_activity (r_trace (main env st)) = [].
Proof.
  intros Hfolder web_folder w Hplugins.
  assert (r_out (main_until_show env st) = Raise e
          ∧ last (r_trace (main_until_show env st)) = Some EvLoadPlugins)
    as [Hout Hlast].
  { rewrite main_until_show_run. cbv zeta. rewrite Hfolder.
    fold web_folder. subst w.
    destruct (os_path_exists env (world st) web_folder);
      cbn [fst snd] in *; rewrite Hplugins;
      cbn [r_out r_trace prepend]; (split; [done|]);
      change [EvPluginManager; EvLoadPlugins]
        with ([EvPluginManager] ++ [EvLoadPlugins]);
      rewrite app_nil_r, !app_assoc; apply last_snoc. }
  destruct (main_run_failed st e Hout) as [Htrace Hraise].
  rewrite Htrace, main_until_show_shell, Hout.
  by rewrite main_until_show_quiet.
Qed.

End Startup.

(** ** The order of the bootstrap *)

Section MoreStartup.
Context {W : Type} (env : Collab W).
Implicit Types st : state W.

(** X21.  The window icon is set exactly when the icon file exists next to
    the script, and then once, with the path joined from [app_dir]; a
    missing icon is no error. *)
Theorem icon_is_set_only_when_the_file_exists st s :
  default (VStr "~/GoogleDriveMount/Web/")
    (cfg_lookup env (world st) "google_drive" "web_folder") = VStr s →
  let web_folder := os_expanduser env (world st) s in
  let w :=
    if os_path_exists env (world st) web_folder then world st
    else (os_makedirs env web_folder (world st)).1 in
  let icon_path :=
    os_path_join env (app_dir env) ["resources"; "icons"; "app_icon.png"] in
  List.filter is_icon (r_trace (main env st)) =
  if os_path_exists env w icon_path then [EvSetWindowIcon icon_path] else [].
Proof.
  intros Hfolder web_folder w icon_path.
  rewrite main_split, trace_bind, List.filter_app.
  assert (List.filter is_icon
            match r_out (main_until_show env st) with
            | Normal a =>
                r_trace (main_from_check env a
                           (r_state (main_until_show env st)))
            | _ => []
            end = []) as ->.
  { destruct (r_out (main_until_show env st)); try done.
    apply (silent_main_from_check env is_icon). by intros []. }
  rewrite app_nil_r, main_until_show_run. cbv zeta. rewrite Hfolder.
  fold web_folder. fold icon_path. subst w.
  repeat case_match; simplify_eq;
    cbn [fst snd r_trace prepend] in *; rewrite ?List.filter_app;
    simpl; repeat case_match; simplify_eq; try done; congruence.
Qed.

(** X22.  Every run of [main] begins the same way: the [QApplication],
    its name and version, and then the process-wide exception reporting,
    which is installed before the configuration is read, the folder is
    looked at or a plugin is loaded, and is installed once. *)
Theorem reporting_is_installed_first st :
  take 4 (r_trace (main env st)) =
    [EvQApplication; EvSetApplicationName "MK Processor";
     EvSetApplicationVersion "3.0.6"; EvSetupExceptionHandling]
  ∧ List.filter is_reporter_setup (r_trace (main env st))
    = [EvSetupExceptionHandling].
Proof.
  rewrite main_split, trace_bind, List.filter_app.
  assert (List.filter is_reporter_setup
            match r_out (main_until_show env st) with
            | Normal a =>
                r_trace (main_from_check env a
                           (r_state (main_until_show env st)))
            | _ => []
            end = []) as ->.
  { destruct (r_out (main_until_show env st)); try done.
    apply (silent_main_from_check env is_reporter_setup). by intros []. }
  rewrite app_nil_r, main_until_show_run. cbv zeta.
  rewrite r_trace_prepend. split; [done|].
  repeat case_match; simplify_eq;
    cbn [fst snd r_trace prepend]; rewrite ?List.filter_app; by simpl.
Qed.

(** X23.  When the update check raises, [main] raises with it after the
    shell has been shown: the call of the check is the last thing [main]
    does, no notification is scheduled and the event loop is never
    entered. *)
Theorem failed_check_ends_main_before_the_loop st window e :
  r_out (main_until_show env st) = Normal window →
  let st1 := r_state (main_until_show env st) in
  let u := check_updater env (world st1) in
  truthy (configured_check_updates env (world st1)) = true →
  (updater_check env u (world st1)).2 = Fails e →
  r_out (main env st) = Raise e
  ∧ last (r_trace (main env st)) = Some (EvCheck u)
  ∧ List.filter is_shell (r_trace (main env st)) = [EvMainWindow; EvShow]
  ∧ List.filter is_event_loop (r_trace (main env st)) = [].
Proof.
  intros Hstart st1 u Hon Hfails.
  assert (List.filter is_event_loop (r_trace (main_until_show env st)) = [])
    as Hquiet.
  { rewrite main_until_show_run. cbv zeta.
    repeat case_match; simplify_eq;
      cbn [fst snd r_trace prepend]; rewrite ?List.filter_app; by simpl. }
  pose proof (main_until_show_shell env st) as Hshell.
  rewrite Hstart in Hshell.
  rewrite main_split, out_bind, trace_bind, Hstart. fold st1.
  unfold main_from_check. rewrite out_bind, trace_bind.
  rewrite check_for_updates_run. cbv zeta. fold u.
  rewrite Hon, Hfails. cbn [negb r_out r_trace].
  rewrite app_nil_r, !List.filter_app, Hshell, Hquiet.
  repeat split; try done.
  change [EvConfigGet "app" "check_updates"
            (configured_check_updates env (world st1));
          EvConfigGet "app" "version" (configured_version env (world st1));
          EvConfigGet "app" "update_url"
            (configured_update_url env (world st1));
          EvUpdater u; EvCheck u]
    with ([EvConfigGet "app" "check_updates"
             (configured_check_updates env (world st1));
           EvConfigGet "app" "version" (configured_version env (world st1));
           EvConfigGet "app" "update_url"
             (configured_update_url env (world st1));
           EvUpdater u] ++ [EvCheck u]).
  rewrite app_assoc. apply last_snoc.
Qed.

End MoreStartup.

(** * More of the update check *)

Section MoreUpdateCheck.
Context {W : Type} (env : Collab W).
Implicit Types st : state W.

(** The update client in the events of [check_for_updates]. *)
Lemma check_for_updates_client_events st :
  List.filter is_update_client (r_trace (check_for_updates env st)) =
  if truthy (configured_check_updates env (world st))
  then [EvUpdater (check_updater env (world st));
        EvCheck (check_updater env (world st))]
  else [].
Proof.
  rewrite check_for_updates_run. cbv zeta.
  by destruct (truthy (configured_check_updates env (world st))).
Qed.

(** A record comes back only from the update client, and only a record
    that is not empty. *)
Lemma check_for_updates_record st d :
  r_out (check_for_updates env st) = Normal (Some d) →
  dict_truthy d = true
  ∧ truthy (configured_check_updates env (world st)) = true
  ∧ (updater_check env (check_updater env (world st)) (world st)).2
    = Returns (Some d).
Proof.
  rewrite check_for_updates_run. cbv zeta.
  destruct (truthy (configured_check_updates env (world st))); [|done].
  cbn [negb r_out].
  destruct (updater_check env _ (world st)) as [w1 [[d'|]|e]];
    cbn [fst snd]; try done.
  destruct (dict_truthy d') eqn:Htruthy; [|done].
  by intros [= ->].
Qed.

(** X6.  [check_for_updates] constructs the update client and calls its
    check exactly once when the toggle is truthy, and does neither when it
    is falsy.  Truthiness is Python's: a toggle stored as a non-empty
    string, be it ["false"], switches the check on. *)
Theorem update_client_is_checked_iff_toggle_is_truthy st :
  List.filter is_update_client (r_trace (check_for_updates env st)) =
  if truthy (configured_check_updates env (world st))
  then [EvUpdater (check_updater env (world st));
        EvCheck (check_updater env (world st))]
  else [].
Proof. apply check_for_updates_client_events. Qed.

(** X7.  A record that [check_for_updates] returns is never empty: it is
    the record the update client's check returned, the toggle was truthy,
    and the record has at least one entry.  An empty record of the client
    is turned into "no update". *)
Theorem check_for_updates_returns_nonempty st d :
  r_out (check_for_updates env st) = Normal (Some d) →
  d ≠ ∅
  ∧ truthy (configured_check_updates env (world st)) = true
  ∧ (updater_check env (check_updater env (world st)) (world st)).2
    = Returns (Some d).
Proof.
  intros Hout.
  destruct (check_for_updates_record st d Hout) as (Hd & Hon & Hreply).
  split; [|done]. unfold dict_truthy in Hd. by case_bool_decide.
Qed.

(** X8.  With a configuration that has none of the three entries, the
    check is on and the update client is constructed with the fallback
    literals of lines 45-49: version ["3.0.6"] and the manifest URL
    ["https://example.com/updates/mk_processor.json"]. *)
Theorem check_for_updates_fallbacks st :
  cfg_lookup env (world st) "app" "check_updates" = None →
  cfg_lookup env (world st) "app" "version" = None →
  cfg_lookup env (world st) "app" "update_url" = None →
  let u :=
    MkUpdater (VStr "3.0.6")
      (Some (VStr "https://example.com/updates/mk_processor.json")) in
  r_trace (check_for_updates env st) =
    [EvConfigGet "app" "check_updates" (VBool true);
     EvConfigGet "app" "version" (VStr "3.0.6");
     EvConfigGet "app" "update_url"
       (VStr "https://example.com/updates/mk_processor.json");
     EvUpdater u; EvCheck u].
Proof.
  intros Htoggle Hversion Hurl u. subst u.
  rewrite check_for_updates_run. cbv zeta.
  unfold check_updater, configured_check_updates, configured_version,
    configured_update_url.
  by rewrite Htoggle, Hversion, Hurl.
Qed.

End MoreUpdateCheck.

(** * More of the update flow *)

Section MoreUpdateFlow.
Context {W : Type} (env : Collab W).
Implicit Types st : state W.

(** X9.  [start_update] catches nothing.  It raises [e] exactly when
    [download_update()] raises [e], or returns a truthy handle on which
    [install_update] raises [e]; and then no warning is shown: the
    "Update Failed" message is reserved for an install that returns a falsy
    value. *)
Theorem start_update_catches_nothing parent st e :
  let u := download_updater env (world st) in
  let d := updater_download env u (world st) in
  let r := start_update env parent st in
  (r_out r = Raise e ↔
     d.2 = Fails e
     ∨ ∃ update_file,
         d.2 = Returns update_file ∧ truthy update_file = true
         ∧ (updater_install env u update_file d.1).2 = Fails e)
  ∧ (r_out r = Raise e → List.filter is_warning (r_trace r) = []).
Proof.
  intros u d r. subst r d u. rewrite start_update_run. cbv zeta.
  destruct (updater_download env _ (world st)) as [w1 [file|e1]];
    cbn [fst snd r_out prepend r_trace].
  - destruct (truthy file) eqn:Hfile; cbn [r_out r_trace].
    + destruct (updater_install env _ file w1) as [w2 [result|e2]] eqn:Hinstall;
        cbn [fst snd r_out r_trace].
      * split; [|done]. split; [done|].
        intros [|(f & ? & ? & Hf)]; simplify_eq.
        rewrite Hinstall in Hf. done.
      * split; [|done]. split.
        -- intros [= ->]. right. exists file. by rewrite Hinstall.
        -- intros [|(f & ? & ? & Hf)]; simplify_eq.
           rewrite Hinstall in Hf. by simplify_eq/=.
    + split; [|done]. split; [done|].
      intros [|(f & ? & ? & ?)]; simplify_eq. congruence.
  - split; [|done]. split.
    + intros [= ->]. by left.
    + intros [|(f & ? & ? & ?)]; by simplify_eq.
Qed.

(** X10.  The warning "Update Failed" is shown exactly when the download
    returned a truthy handle and the install of that handle returned a
    falsy value; a download that yields nothing, and a failure that is an
    exception, are silent. *)
Theorem update_failed_warning_iff parent st :
  let u := download_updater env (world st) in
  let d := updater_download env u (world st) in
  EvWarning (Some parent) "Update Failed"
    "Failed to install the update. Please try again later."
  ∈ r_trace (start_update env parent st)
  ↔ ∃ update_file result,
      d.2 = Returns update_file ∧ truthy update_file = true
      ∧ (updater_install env u update_file d.1).2 = Returns result
      ∧ truthy result = false.
Proof.
  intros u d. subst d u. rewrite start_update_run. cbv zeta.
  destruct (updater_download env _ (world st)) as [w1 [file|e1]];
    cbn [fst snd r_out prepend r_trace].
  - destruct (truthy file) eqn:Hfile; cbn [r_out r_trace].
    + destruct (updater_install env _ file w1) as [w2 [result|e2]] eqn:Hinstall;
        cbn [fst snd r_out r_trace].
      * destruct (truthy result) eqn:Hresult; cbn [negb].
        -- split; [intros Hin; apply list_elem_of_In in Hin; simpl in Hin; intuition discriminate|]. intros (f & r & ? & ? & Hf & ?).
           simplify_eq. rewrite Hinstall in Hf. simplify_eq/=. congruence.
        -- split; [|intros _; apply list_elem_of_In; simpl; tauto].
           intros _. exists file, result. by rewrite Hinstall.
      * split; [intros Hin; apply list_elem_of_In in Hin; simpl in Hin; intuition discriminate|]. intros (f & r & ? & ? & Hf & ?).
        simplify_eq. rewrite Hinstall in Hf. by simplify_eq/=.
    + split; [intros Hin; apply list_elem_of_In in Hin; simpl in Hin; intuition discriminate|]. intros (f & r & ? & ? & ? & ?).
      simplify_eq. congruence.
  - split; [intros Hin; apply list_elem_of_In in Hin; simpl in Hin; intuition discriminate|]. intros (f & r & ? & ? & ? & ?). by simplify_eq.
Qed.

(** X11.  When the offer is accepted and both steps succeed (a truthy
    handle, a truthy result), the flow is one download and one install of
    that handle and nothing else: no message tells the user that the update
    was installed, and the script takes no further action. *)
Theorem successful_update_is_silent parent update_info update_file result
    st :
  let r := show_update_dialog env parent update_info st in
  EvDialogExec ∈ r_trace r →
  (dialog_user env (world st)).2 = ClickUpdateNow →
  let w := (dialog_user env (world st)).1 in
  let u := download_updater env w in
  (updater_download env u w).2 = Returns update_file →
  truthy update_file = true →
  (updater_install env u update_file (updater_download env u w).1).2
  = Returns result →
  truthy result = true →
  List.filter is_flow (r_trace r) = [EvDownload u; EvInstall u update_file]
  ∧ last (r_trace r) = Some (EvInstall u update_file)
  ∧ r_out r = Normal tt
  ∧ flow_of (r_trace r) = Installed.
Proof.
  intros r Hpresented Haccept w u Hdownload Htruthy Hinstall Hresult.
  subst r u w.
  apply presented_offer in Hpresented as [notes Hnotes].
  rewrite (accepted_offer_run env parent update_info notes st Hnotes Haccept).
  unfold slot, try_except_Exception. rewrite start_update_run. cbv zeta.
  simpl world. rewrite Hdownload, Htruthy. cbv zeta.
  rewrite Hinstall, Hresult. done.
Qed.

Lemma tame_start_update parent : never_exits (start_update env parent).
Proof. open_script. frame. Qed.

(** A slot always returns: what its body raises goes to the hook. *)
Lemma slot_returns (body : M W unit) st :
  never_exits body → r_out (slot body st) = Normal tt.
Proof.
  intros Htame. unfold slot. rewrite out_try_except_Exception.
  destruct (r_out (body st)) as [[]| |c] eqn:Hout; try done.
  by destruct (Htame st c).
Qed.

Lemma slot_start_update_shows_no_text parent :
  silent is_offer_text (slot (start_update env parent)).
Proof. open_script. frame. Qed.

(** The texts of the offer, when it is presented. *)
Lemma offer_texts parent update_info notes st :
  notes_of update_info = Some notes →
  let r := show_update_dialog env parent update_info st in
  List.filter is_offer_text (r_trace r) =
    [EvLabel ("<h3>MK Processor "
              +:+ py_str (default VNone (update_info !! "version"))
              +:+ " is available!</h3>");
     EvLabel ("You are currently using version "
              +:+ py_str (configured_version env (world st)));
     EvLabel "<b>Release Notes:</b>";
     EvReleaseNotes notes]
  ∧ r_out r = Normal tt.
Proof.
  intros Hnotes r. subst r.
  rewrite (show_update_dialog_run env parent update_info _ st Hnotes).
  cbv zeta. rewrite r_trace_prepend, r_out_prepend, List.filter_app.
  unfold offer_events.
  set (rest := match (dialog_user env (world st)).2 with
               | ClickUpdateNow => _ | _ => _ end).
  assert (List.filter is_offer_text (r_trace rest) = []
          ∧ r_out rest = Normal tt) as [-> ->]; [|done].
  subst rest. destruct (dialog_user env (world st)).2; try done.
  split; [apply slot_start_update_shows_no_text|].
  apply slot_returns, tame_start_update.
Qed.

(** X12.  The defaults of the offer, each on its own.  A record without a
    ["version"] entry is offered as version "None": that is the headline,
    whatever else the record holds.  A record without a ["release_notes"]
    entry is offered with the text "No release notes available.", whatever
    else it holds: it is presented like any other offer, and
    [show_update_dialog] returns. *)
Theorem offer_of_a_bare_record parent update_info st :
  let r := show_update_dialog env parent update_info st in
  (update_info !! "version" = None →
   head (List.filter is_offer_text (r_trace r))
   = Some (EvLabel "<h3>MK Processor None is available!</h3>"))
  ∧ (update_info !! "release_notes" = None →
     List.filter is_offer_text (r_trace r) =
       [EvLabel ("<h3>MK Processor "
                 +:+ py_str (default VNone (update_info !! "version"))
                 +:+ " is available!</h3>");
        EvLabel ("You are currently using version "
                 +:+ py_str (configured_version env (world st)));
        EvLabel "<b>Release Notes:</b>";
        EvReleaseNotes "No release notes available."]
     ∧ EvDialogExec ∈ r_trace r
     ∧ r_out r = Normal tt).
Proof.
  intros r. subst r. split.
  - intros Hversion.
    destruct (notes_of update_info) as [notes|] eqn:Hnotes.
    + destruct (offer_texts parent update_info notes st Hnotes) as [-> _].
      by rewrite Hversion.
    + rewrite (show_update_dialog_refused env parent update_info st Hnotes).
      by rewrite Hversion.
  - intros Hnotes.
    assert (notes_of update_info = Some "No release notes available.")
      as Hoffer by (unfold notes_of; by rewrite Hnotes).
    destruct (offer_texts parent update_info _ st Hoffer) as [-> ->].
    split; [done|]. split; [|done].
    apply presented_offer. by eexists.
Qed.

(** X13.  Release notes that the record holds are never replaced by the
    default text.  When they are [None], the box is left empty and the
    offer is presented as usual.  When they are neither a string nor
    [None] (a number, a boolean), [setPlainText] raises a [TypeError] while
    the dialog is being built: the dialog is never opened, the user is not
    asked, and the update client is not touched. *)
Theorem release_notes_of_another_type parent update_info v st :
  update_info !! "release_notes" = Some v →
  (∀ s, v ≠ VStr s) →
  let r := show_update_dialog env parent update_info st in
  match v with
  | VNone =>
      List.filter is_offer_text (r_trace r) =
        [EvLabel ("<h3>MK Processor "
                  +:+ py_str (default VNone (update_info !! "version"))
                  +:+ " is available!</h3>");
         EvLabel ("You are currently using version "
                  +:+ py_str (configured_version env (world st)));
         EvLabel "<b>Release Notes:</b>";
         EvReleaseNotes EmptyString]
      ∧ EvDialogExec ∈ r_trace r
      ∧ r_out r = Normal tt
  | _ =>
      r_out r = Raise (TypeError (setPlainText_type_error env v))
      ∧ List.filter is_update_activity (r_trace r) = [EvDialog parent]
      ∧ r_state r = st
  end.
Proof.
  intros Hnotes Hbad r. subst r.
  destruct v as [|b|n|s]; [| | |by destruct (Hbad s)].
  - assert (notes_of update_info = Some EmptyString) as Hoffer
      by (unfold notes_of; by rewrite Hnotes).
    destruct (offer_texts parent update_info _ st Hoffer) as [-> ->].
    split; [done|]. split; [|done].
    apply presented_offer. by eexists.
  - assert (notes_of update_info = None) as Hrefused
      by (unfold notes_of; by rewrite Hnotes).
    rewrite (show_update_dialog_refused env parent update_info st Hrefused).
    by rewrite Hnotes.
  - assert (notes_of update_info = None) as Hrefused
      by (unfold notes_of; by rewrite Hnotes).
    rewrite (show_update_dialog_refused env parent update_info st Hrefused).
    by rewrite Hnotes.
Qed.

End MoreUpdateFlow.

(** * More of the process *)

(** The rules by which [keeps_qapp] passes through the monad. *)
Section QappFrames.
Context {W : Type} (env : Collab W).
Implicit Types st : state W.

Lemma qapp_ret {A} (a : A) : keeps_qapp (mret a : M W A).
Proof. by intros st. Qed.

Lemma qapp_bind {A B} (m : M W A) (k : A → M W B) :
  keeps_qapp m → (∀ a, keeps_qapp (k a)) → keeps_qapp (m ≫= k).
Proof.
  intros Hm Hk st. rewrite bind_run. unfold continue.
  destruct (r_out (m st)); simpl; rewrite ?Hk; apply Hm.
Qed.

Lemma qapp_emit e : keeps_qapp (emit e : M W unit).
Proof. by intros st. Qed.

Lemma qapp_raise {A} e : keeps_qapp (raise e : M W A).
Proof. by intros st. Qed.

Lemma qapp_get_state : keeps_qapp (get_state : M W (state W)).
Proof. by intros st. Qed.

Lemma qapp_ask {A} (g : W → W * reply A) : keeps_qapp (ask g).
Proof. intros st. unfold ask. by destruct (g (world st)) as [w [a|e]]. Qed.

Lemma qapp_ask_total {A} (g : W → W * A) : keeps_qapp (ask_total g).
Proof. intros st. unfold ask_total. by destruct (g (world st)). Qed.

Lemma qapp_try_except_Exception {A} (body : M W A) handler :
  keeps_qapp body → (∀ e, keeps_qapp (handler e)) →
  keeps_qapp (try_except_Exception body handler).
Proof.
  intros Hb Hh st. unfold try_except_Exception.
  destruct (r_out (body st)); simpl; rewrite ?Hh; apply Hb.
Qed.

Lemma qapp_singleShot msec cb : keeps_qapp (singleShot msec cb : M W unit).
Proof.
  intros st. unfold singleShot. by rewrite emit_bind, get_state_bind.
Qed.

End QappFrames.

Create HintDb qapp_frames discriminated.
#[global] Hint Resolve qapp_ret qapp_bind qapp_emit qapp_raise qapp_get_state
  qapp_ask qapp_ask_total qapp_try_except_Exception qapp_singleShot
  : qapp_frames.

Ltac qapp_step :=
  match goal with
  | |- context [match ?x with _ => _ end] => destruct x
  | |- ∀ _, _ => intros ?
  | |- _ => solve [eauto 2 with qapp_frames]
  | |- keeps_qapp (_ ≫= _) => apply qapp_bind
  | |- keeps_qapp (try_except_Exception _ _) =>
      apply qapp_try_except_Exception
  end.
Ltac qapp_frame := repeat qapp_step.

Section MoreProcess.
Context {W : Type} (env : Collab W).
Implicit Types st : state W.

Lemma qapp_run_callback cb : keeps_qapp (run_callback env cb).
Proof.
  unfold run_callback, show_update_dialog, dialog_exec, start_update,
    setPlainText, slot, config_get, warning, Updater_new, Updater_download,
    Updater_install.
  qapp_frame.
Qed.

Lemma qapp_fire pending : keeps_qapp (fire env pending).
Proof.
  induction pending as [|[msec cb] rest IH]; simpl; [qapp_frame|].
  pose proof (qapp_run_callback cb). unfold slot. qapp_frame.
Qed.

Lemma qapp_app_exec : keeps_qapp (app_exec env).
Proof.
  intros st. unfold app_exec.
  rewrite emit_bind, get_state_bind, put_state_bind, r_state_prepend.
  pose proof qapp_fire as Hfire.
  assert (keeps_qapp (fire env (timers st) ≫= λ _, ask_total (loop_quit env)))
    as Hrest by qapp_frame.
  by rewrite Hrest.
Qed.

Lemma qapp_main_from_check window : keeps_qapp (main_from_check env window).
Proof.
  pose proof qapp_app_exec.
  unfold main_from_check, check_for_updates, config_get, Updater_new,
    Updater_check.
  qapp_frame.
Qed.

(** Where a bind leaves the state. *)
Lemma state_bind {A B} (m : M W A) (k : A → M W B) st :
  r_state ((m ≫= k) st) =
  match r_out (m st) with
  | Normal a => r_state (k a (r_state (m st)))
  | _ => r_state (m st)
  end.
Proof. rewrite bind_run. unfold continue. by destruct (r_out (m st)). Qed.

(** [main] leaves a [QApplication] behind, however it ends. *)
Lemma main_has_qapp st : qapp (r_state (main env st)) = true.
Proof.
  rewrite main_split, state_bind.
  assert (qapp (r_state (main_until_show env st)) = true) as Hstart.
  { rewrite main_until_show_run. cbv zeta. by repeat case_match. }
  destruct (r_out (main_until_show env st)); try done.
  by rewrite qapp_main_from_check.
Qed.

Lemma main_creates_one_qapplication st :
  List.filter is_qapplication (r_trace (main env st)) = [EvQApplication].
Proof.
  rewrite main_split, trace_bind, List.filter_app.
  assert (List.filter is_qapplication (r_trace (main_until_show env st))
          = [EvQApplication]) as ->.
  { rewrite main_until_show_run. cbv zeta.
    repeat case_match; simplify_eq;
      cbn [fst snd r_trace prepend]; rewrite ?List.filter_app; by simpl. }
  destruct (r_out (main_until_show env st)); try done.
  rewrite (silent_main_from_check env is_qapplication); [done|].
  by intros [].
Qed.

(** The events of a [try]. *)
Lemma trace_try_except_Exception {A} (body : M W A) handler st :
  r_trace (try_except_Exception body handler st) =
  r_trace (body st) ++
  match r_out (body st) with
  | Raise e => r_trace (handler e (r_state (body st)))
  | _ => []
  end.
Proof.
  unfold try_except_Exception.
  destruct (r_out (body st)) eqn:Hbody; simpl; by rewrite ?app_nil_r.
Qed.

Lemma trace_try_except_all_pass (body : M W unit) st :
  r_trace (try_except_all body (mret tt) st) = r_trace (body st).
Proof.
  unfold try_except_all.
  destruct (r_out (body st)) eqn:Hbody; simpl; by rewrite ?app_nil_r.
Qed.

Lemma trace_critical title text detailed st :
  r_trace (critical env title text detailed st)
  = [EvCritical title text detailed].
Proof.
  unfold critical. rewrite emit_bind, r_trace_prepend. unfold ask.
  by destruct (critical_exec env (world st)) as [w [a|e]].
Qed.

(** What the handler of lines 168-189 does when a [QApplication] exists. *)
Lemma wrapper_handler_trace line1 line2 title text detailed st :
  qapp st = true →
  r_trace
    ((print line1;; print line2;;
      try_except_all
        (st' ← get_state;
         (if negb (qapp st') then QApplication_new else mret tt);;
         critical env title text detailed)
        (mret tt);;
      sys_exit 1) st : run W unit)
  = [EvPrint line1; EvPrint line2; EvCritical title text detailed].
Proof.
  intros Hqapp. unfold print.
  rewrite !emit_bind, !r_trace_prepend, trace_bind.
  rewrite try_except_all_pass, trace_try_except_all_pass.
  rewrite get_state_bind, Hqapp. cbn [negb].
  by rewrite ret_bind, trace_critical.
Qed.

(** The events of the wrapper: those of [main], and the crash report when
    [main] raises. *)
Lemma entry_point_trace st :
  r_trace (entry_point env st) =
  r_trace (main env st) ++
  match r_out (main env st) with
  | Raise e =>
      [EvPrint ("Unhandled application error: " +:+ exn_msg e);
       EvPrint (format_exc env e);
       EvCritical "Application Error"
         ("An unhandled error occurred: " +:+ exn_msg e) (format_exc env e)]
  | _ => []
  end.
Proof.
  unfold entry_point.
  rewrite trace_try_except_Exception, trace_bind, out_bind, state_bind.
  pose proof (main_has_qapp st) as Hqapp.
  destruct (r_out (main env st)) as [code|e|code];
    cbn [r_trace sys_exit]; rewrite ?app_nil_r; try done.
  by rewrite (wrapper_handler_trace _ _ _ _ _ _ Hqapp).
Qed.

(** X14.  The wrapper adds nothing to a run of [main] that returns, and to
    a run that raises [e] it adds the crash report: the line "Unhandled
    application error: " with [str(e)], the traceback, and the attempt to
    show the "Application Error" box with [str(e)] and the traceback.  It
    never constructs a second [QApplication]: [main] has made one before
    anything could fail. *)
Theorem crash_report st :
  r_trace (entry_point env st) =
  r_trace (main env st) ++
  match r_out (main env st) with
  | Raise e =>
      [EvPrint ("Unhandled application error: " +:+ exn_msg e);
       EvPrint (format_exc env e);
       EvCritical "Application Error"
         ("An unhandled error occurred: " +:+ exn_msg e) (format_exc env e)]
  | _ => []
  end.
Proof. apply entry_point_trace. Qed.






(** What the import guard does when the application's modules do not
    load. *)
Lemma import_guard_trace st e :
  pyqt_loaded st = true →
  (import_modules env (world st)).2 = Fails e →
  r_trace (import_guard env st) =
    [EvPrint ("Error importing required modules: " +:+ exn_msg e);
     EvPrint (format_exc env e);
     EvQApplication;
     EvCritical "Module Import Error"
       ("Failed to import required modules: " +:+ exn_msg e)
       (format_exc env e)].
Proof.
  intros Hloaded Hfails. unfold import_guard.
  rewrite try_ask_run, Hfails. unfold print.
  rewrite !emit_bind, !r_trace_prepend, get_state_bind.
  change (pyqt_loaded (set_world _ st)) with (pyqt_loaded st).
  rewrite Hloaded, trace_bind, QApplication_new_bind, r_trace_prepend,
    r_out_prepend, trace_critical.
  destruct (r_out (critical env _ _ _ _)); by simpl.
Qed.

(** The script after the toolkit imports. *)
Lemma python_main_after_toolkit w x :
  (import_toolkit env w).2 = Returns x →
  python_main env w =
  (import_guard env ≫= λ _, entry_point env)
    (MkState (import_toolkit env w).1 [] false true).
Proof.
  intros Htoolkit. unfold python_main, script.
  rewrite ask_bind. cbn [boot world]. rewrite Htoolkit.
  by rewrite get_state_bind, put_state_bind.
Qed.

Lemma import_failure_trace w x e :
  (import_toolkit env w).2 = Returns x →
  (import_modules env (import_toolkit env w).1).2 = Fails e →
  r_trace (python_main env w) =
    [EvPrint ("Error importing required modules: " +:+ exn_msg e);
     EvPrint (format_exc env e);
     EvQApplication;
     EvCritical "Module Import Error"
       ("Failed to import required modules: " +:+ exn_msg e)
       (format_exc env e)].
Proof.
  intros Htoolkit Hmodules.
  rewrite (python_main_after_toolkit w x Htoolkit), trace_bind.
  set (st1 := MkState _ _ _ _).
  rewrite (import_guard_trace st1 e eq_refl Hmodules).
  pose proof (import_guard_run env st1 eq_refl) as Hguard.
  change (world st1) with (import_toolkit env w).1 in Hguard.
  rewrite Hmodules in Hguard.
  by destruct Hguard as [-> | [e' ->]].
Qed.

(** X16.  When the application's own modules cannot be imported, the
    process does nothing but report it: two lines on the console (the
    message with [str(e)], the traceback), a [QApplication], and the
    "Module Import Error" box.  [main] is never entered. *)
Theorem import_failure_report w x e :
  (import_toolkit env w).2 = Returns x →
  (import_modules env (import_toolkit env w).1).2 = Fails e →
  r_trace (python_main env w) =
    [EvPrint ("Error importing required modules: " +:+ exn_msg e);
     EvPrint (format_exc env e);
     EvQApplication;
     EvCritical "Module Import Error"
       ("Failed to import required modules: " +:+ exn_msg e)
       (format_exc env e)].
Proof. apply import_failure_trace. Qed.

(** X17.  A process that gets past the toolkit imports constructs exactly
    one [QApplication], whichever way it goes: the import guard makes it
    when the modules fail to load, [main] makes it otherwise, and the crash
    handler finds that one. *)
Theorem one_qapplication_per_process w x :
  (import_toolkit env w).2 = Returns x →
  List.filter is_qapplication (r_trace (python_main env w))
  = [EvQApplication].
Proof.
  intros Htoolkit.
  destruct (import_modules env (import_toolkit env w).1).2 as [y|e]
    eqn:Hmodules.
  - rewrite (python_main_after_toolkit w x Htoolkit), trace_bind.
    set (st1 := MkState _ _ _ _).
    pose proof (import_guard_run env st1 eq_refl) as Hguard.
    change (world st1) with (import_toolkit env w).1 in Hguard.
    rewrite Hmodules in Hguard. rewrite Hguard.
    cbn [r_trace r_out r_state app].
    rewrite entry_point_trace, List.filter_app, main_creates_one_qapplication.
    by destruct (r_out (main env _)).
  - by rewrite (import_failure_trace w x e Htoolkit Hmodules).
Qed.

(** X18.  Once both imports have succeeded the process always ends in
    [sys.exit]: with the code [main] returns, or with 1 when an exception
    leaves [main].  No instance of [Exception] leaves the script
    uncaught, and [main] itself never calls [sys.exit]. *)
Theorem process_ends_in_sys_exit w x y :
  (import_toolkit env w).2 = Returns x →
  (import_modules env (import_toolkit env w).1).2 = Returns y →
  r_out (python_main env w) =
  SysExit
    match r_out (main env (imported env w)) with
    | Normal code => code
    | _ => 1
    end.
Proof.
  intros Htoolkit Hmodules.
  rewrite (python_main_after_toolkit w x Htoolkit), out_bind.
  set (st1 := MkState _ _ _ _).
  pose proof (import_guard_run env st1 eq_refl) as Hguard.
  change (world st1) with (import_toolkit env w).1 in Hguard.
  rewrite Hmodules in Hguard. rewrite Hguard.
  cbn [r_out r_state]. rewrite entry_point_out.
  change (set_world _ st1) with (imported env w).
  pose proof (tame_main env (imported env w)) as Htame.
  destruct (r_out (main env (imported env w))) as [code|e|code]; try done.
  by destruct (Htame code).
Qed.

End MoreProcess.

(** * Each step of the update at most once *)

Section AtMostOnce.
Context {W : Type} (env : Collab W).
Implicit Types st : state W.

(** The update client in the events of one callback: at most a download
    and then an install, both of the one [Updater] constructed before. *)
Lemma callback_update_client cb st :
  ∃ u update_file,
    List.filter is_update_client (r_trace (slot (run_callback env cb) st))
    `prefix_of` [EvUpdater u; EvDownload u; EvInstall u update_file].
Proof.
  destruct cb as [parent update_info]. cbn [run_callback].
  unfold slot. rewrite trace_try_except_Exception.
  destruct (notes_of update_info) as [notes|] eqn:Hnotes.
  - rewrite (show_update_dialog_run env parent update_info notes st Hnotes).
    cbv zeta.
    destruct (dialog_user env (world st)) as [w1 []]; cbn [fst snd];
      try (exists (MkUpdater VNone None), VNone; by apply prefix_nil).
    rewrite r_out_prepend, r_state_prepend, r_trace_prepend.
    rewrite (slot_returns _ _ (tame_start_update env parent)).
    rewrite app_nil_r, List.filter_app.
    unfold slot. rewrite trace_try_except_Exception, start_update_run.
    cbv zeta.
    exists (download_updater env w1).
    destruct (updater_download env _ _) as [w2 [file|e]]; cbn [fst snd].
    + exists file.
      repeat case_match; simplify_eq; cbn;
        by repeat (apply prefix_cons || apply prefix_nil).
    + exists VNone. cbn. by repeat (apply prefix_cons || apply prefix_nil).
  - rewrite (show_update_dialog_refused env parent update_info st Hnotes).
    exists (MkUpdater VNone None), VNone. by apply prefix_nil.
Qed.


(** The event loop with one timer pending, seen through a class of events
    that holds neither [exec_()] itself nor the firing of a timer: what is
    left is what the callback does, if it is run. *)
Lemma app_exec_one_callback (f : event → bool) msec cb st :
  f EvAppExec = false →
  f (EvTimeout cb) = false →
  timers st = [(msec, cb)] →
  ∃ st', List.filter f (r_trace (app_exec env st)) =
         if (loop_wait env msec (world st)).2
         then List.filter f (r_trace (slot (run_callback env cb) st'))
         else [].
Proof.
  intros Hexec Htimeout Htimers. unfold app_exec.
  rewrite emit_bind, get_state_bind, put_state_bind, Htimers.
  rewrite r_trace_prepend, trace_bind. cbn [fire].
  rewrite ask_total_bind. cbn [world].
  destruct (loop_wait env msec (world st)) as [w1 running]; cbn [fst snd].
  set (s1 := set_world w1 _). exists s1.
  assert (∀ s, r_trace (ask_total (loop_quit env) s) = []) as Hquit.
  { intros s. unfold ask_total. by destruct (loop_quit env (world s)). }
  rewrite List.filter_app. cbn [List.filter]. rewrite Hexec. cbn [app].
  destruct running.
  - rewrite emit_bind, !r_out_prepend, !r_state_prepend, r_trace_prepend.
    rewrite trace_bind. cbn [fire].
    rewrite out_bind, state_bind.
    rewrite (slot_returns _ _ (tame_run_callback env cb)).
    unfold mret, M_ret, ret. cbn [r_out r_trace r_state].
    rewrite Hquit, !app_nil_r, List.filter_app.
    cbn [List.filter]. by rewrite Htimeout.
  - simpl. by rewrite Hquit.
Qed.

Lemma app_exec_no_callback (f : event → bool) st :
  f EvAppExec = false →
  timers st = [] →
  List.filter f (r_trace (app_exec env st)) = [].
Proof.
  intros Hexec Htimers. unfold app_exec.
  rewrite emit_bind, get_state_bind, put_state_bind, Htimers.
  cbn [fire]. rewrite ret_bind. unfold ask_total, prepend.
  destruct (loop_quit env _). simpl. by rewrite Hexec.
Qed.

(** X19.  In a whole run of [main] the update client is used at most
    this much, in this order: one [Updater] is constructed and checked;
    then a second [Updater] is constructed, asked to download once and to
    install once.  No step is ever repeated. *)
Theorem update_client_is_used_at_most_once st :
  timers st = [] →
  ∃ u1 u2 update_file,
    List.filter is_update_client (r_trace (main env st))
    `prefix_of`
    [EvUpdater u1; EvCheck u1;
     EvUpdater u2; EvDownload u2; EvInstall u2 update_file].
Proof.
  intros Htimers.
  pose (nobody := MkUpdater VNone None).
  rewrite main_split, trace_bind, List.filter_app.
  assert (List.filter is_update_client (r_trace (main_until_show env st)) = [])
    as ->.
  { rewrite main_until_show_run. cbv zeta.
    repeat case_match; simplify_eq;
      cbn [fst snd r_trace prepend]; rewrite ?List.filter_app; by simpl. }
  cbn [app].
  destruct (r_out (main_until_show env st)) as [window| |];
    try (exists nobody, nobody, VNone; by apply prefix_nil).
  set (st1 := r_state (main_until_show env st)).
  assert (timers st1 = []) as Htimers1
    by (subst st1; by rewrite keeps_main_until_show).
  unfold main_from_check.
  rewrite trace_bind, List.filter_app, check_for_updates_client_events.
  exists (check_updater env (world st1)).
  assert (∃ u2 update_file,
            List.filter is_update_client
              match r_out (check_for_updates env st1) with
              | Normal a =>
                  r_trace
                    ((match a with
                      | Some d =>
                          singleShot 1000 (CbShowUpdateDialog window d)
                      | None => mret tt
                      end ≫= λ _, app_exec env)
                       (r_state (check_for_updates env st1)))
              | _ => []
              end
            `prefix_of` [EvUpdater u2; EvDownload u2; EvInstall u2 update_file]
            ∧ (truthy (configured_check_updates env (world st1)) = false →
               List.filter is_update_client
                 match r_out (check_for_updates env st1) with
                 | Normal a =>
                     r_trace
                       ((match a with
                         | Some d =>
                             singleShot 1000 (CbShowUpdateDialog window d)
                         | None => mret tt
                         end ≫= λ _, app_exec env)
                          (r_state (check_for_updates env st1)))
                 | _ => []
                 end = []))
    as (u2 & update_file & Hflow & Hoff).
  { set (st2 := r_state (check_for_updates env st1)).
    assert (timers st2 = []) as Htimers2
      by (subst st2; by rewrite keeps_check_for_updates).
    destruct (r_out (check_for_updates env st1)) as [[d|]| |] eqn:Hcheck;
      try (exists nobody, VNone; split; [by apply prefix_nil | done]).
    - rewrite singleShot_bind, r_trace_prepend, List.filter_app. cbn [app].
      destruct (app_exec_one_callback is_update_client 1000
                  (CbShowUpdateDialog window d)
                  (MkState (world st2) (timers st2 ++ [(1000,
                     CbShowUpdateDialog window d)]) (qapp st2)
                     (pyqt_loaded st2)) eq_refl eq_refl) as [st' ->].
      { simpl. by rewrite Htimers2. }
      destruct (check_for_updates_record env st1 d Hcheck) as (_ & Hon & _).
      destruct (callback_update_client (CbShowUpdateDialog window d) st')
        as (u2 & update_file & Hprefix).
      exists u2, update_file. split; [|by rewrite Hon].
      cbn [List.filter is_update_client app].
      destruct (loop_wait env 1000 _).2; [done | by apply prefix_nil].
    - rewrite ret_bind, (app_exec_no_callback is_update_client); try done.
      exists nobody, VNone. split; [by apply prefix_nil | done]. }
  exists u2, update_file.
  destruct (truthy (configured_check_updates env (world st1))).
  - by apply (prefix_app [_; _]).
  - rewrite Hoff; [|done]. by apply prefix_nil.
Qed.

End AtMostOnce.

Section Toolkit.
Context {W : Type} (env : Collab W).

(** X20.  The toolkit imports of lines 10-11 stand before the import
    guard: when they fail, the script reports nothing itself (no line is
    printed, no dialog attempted) and the exception ends the process. *)
Theorem missing_toolkit_is_not_reported w e :
  (import_toolkit env w).2 = Fails e →
  r_trace (python_main env w) = []
  ∧ r_out (python_main env w) = Raise e.
Proof.
  intros Htoolkit. unfold python_main, script.
  rewrite ask_bind. cbn [boot world]. by rewrite Htoolkit.
Qed.

End Toolkit.

(** * The further theorems at work on the scripted world *)

(** [offline]: the check is the last event of [main]; [show()] is among the
    fourteen before it. *)
Lemma update_activity_follows_show_witness :
  let t := r_trace (main sim_env (boot (0%nat, offline))) in
  t = take 14 t ++ EvCheck (check_updater sim_env (0%nat, offline)) :: []
  ∧ EvShow ∈ take 14 t.
Proof.
  split; [by vm_compute|].
  apply (update_activity_follows_show sim_env (boot (0%nat, offline)) _
           (EvCheck (check_updater sim_env (0%nat, offline))) []).
  - by vm_compute.
  - reflexivity.
Defined.

(** [folder_is_none]: the entry is [None]. *)
Lemma folder_entry_must_be_a_string_witness :
  r_out (main sim_env (boot (0%nat, folder_is_none))) =
    Raise (TypeError "expected str, bytes or os.PathLike object, not NoneType")
  ∧ r_trace (main sim_env (boot (0%nat, folder_is_none))) =
      [EvQApplication; EvSetApplicationName "MK Processor";
       EvSetApplicationVersion "3.0.6"; EvSetupExceptionHandling;
       EvConfigGet "google_drive" "web_folder" VNone].
Proof.
  apply (folder_entry_must_be_a_string sim_env (boot (0%nat, folder_is_none))).
  intros s. simpl. discriminate.
Defined.

(** [sunny]: the folder is there; [readonly_disk]: it is not and cannot be
    made. *)
Lemma folder_is_created_only_when_missing_witness :
  List.filter is_directory (r_trace (main sim_env (boot (0%nat, sunny)))) = []
  ∧ List.filter is_directory
      (r_trace (main sim_env (boot (0%nat, readonly_disk))))
    = [EvMakedirs "/srv/web";
       EvWarning None "Directory Warning"
         "Could not create web folder at /srv/web.

Error: [Errno 13] Permission denied: '/srv/web'

The application will continue, but functionality may be limited."].
Proof.
  split.
  - apply (folder_is_created_only_when_missing sim_env (boot (0%nat, sunny))
             "/srv/web").
    reflexivity.
  - apply (folder_is_created_only_when_missing sim_env
             (boot (0%nat, readonly_disk)) "/srv/web").
    reflexivity.
Defined.

(** [headless_crash]: a plugin cannot be loaded. *)
Lemma plugin_failure_is_fatal_witness :
  let r := main sim_env (boot (0%nat, headless_crash)) in
  r_out r = Raise plugin_error
  ∧ last (r_trace r) = Some EvLoadPlugins
  ∧ List.filter is_shell (r_trace r) = []
  ∧ List.filter is_update_activity (r_trace r) = [].
Proof.
  apply (plugin_failure_is_fatal sim_env (boot (0%nat, headless_crash))
           "/srv/web" plugin_error).
  - reflexivity.
  - reflexivity.
Defined.

(** [toggle_as_text]: the text "false" switches the check on. *)
Example toggle_as_text_run :
  List.filter is_update_client
    (r_trace (check_for_updates sim_env (boot (0%nat, toggle_as_text))))
  = [EvUpdater (check_updater sim_env (0%nat, toggle_as_text));
     EvCheck (check_updater sim_env (0%nat, toggle_as_text))].
Proof. by vm_compute. Qed.

(** [sunny]: the record on offer is returned, and it is not empty. *)
Lemma check_for_updates_returns_nonempty_witness :
  r_out (check_for_updates sim_env (boot (0%nat, sunny)))
  = Normal (Some offer_307)
  ∧ offer_307 ≠ ∅.
Proof.
  split; [reflexivity|].
  apply (check_for_updates_returns_nonempty sim_env (boot (0%nat, sunny))
           offer_307).
  reflexivity.
Defined.

(** [no_app_entries]: the configuration says nothing about updates. *)
Lemma check_for_updates_fallbacks_witness :
  let u :=
    MkUpdater (VStr "3.0.6")
      (Some (VStr "https://example.com/updates/mk_processor.json")) in
  r_trace (check_for_updates sim_env (boot (0%nat, no_app_entries))) =
    [EvConfigGet "app" "check_updates" (VBool true);
     EvConfigGet "app" "version" (VStr "3.0.6");
     EvConfigGet "app" "update_url"
       (VStr "https://example.com/updates/mk_processor.json");
     EvUpdater u; EvCheck u].
Proof.
  apply (check_for_updates_fallbacks sim_env (boot (0%nat, no_app_entries)));
    reflexivity.
Defined.

(** [sunny], with an offer whose release notes are [None]: download and
    install succeed. *)
Lemma successful_update_is_silent_witness :
  let r :=
    show_update_dialog sim_env TheMainWindow offer_307_no_notes
      (prompt_state sunny) in
  let u := MkUpdater (VStr "3.0.6") None in
  List.filter is_flow (r_trace r)
  = [EvDownload u; EvInstall u (VStr "/tmp/mk_update.zip")]
  ∧ last (r_trace r) = Some (EvInstall u (VStr "/tmp/mk_update.zip"))
  ∧ r_out r = Normal tt
  ∧ flow_of (r_trace r) = Installed.
Proof.
  apply (successful_update_is_silent sim_env TheMainWindow
           offer_307_no_notes (VStr "/tmp/mk_update.zip") (VBool true)
           (prompt_state sunny));
    [apply list_elem_of_In; vm_compute; tauto | reflexivity..].
Defined.

(** [offer_without_version] has notes but no version; [offer_without_notes]
    has a version but no notes. *)
Lemma offer_of_a_bare_record_witness :
  let r1 :=
    show_update_dialog sim_env TheMainWindow offer_without_version
      (prompt_state sunny) in
  let r2 :=
    show_update_dialog sim_env TheMainWindow offer_without_notes
      (prompt_state sunny) in
  head (List.filter is_offer_text (r_trace r1))
  = Some (EvLabel "<h3>MK Processor None is available!</h3>")
  ∧ List.filter is_offer_text (r_trace r2) =
      [EvLabel "<h3>MK Processor 3.0.7 is available!</h3>";
       EvLabel "You are currently using version 3.0.6";
       EvLabel "<b>Release Notes:</b>";
       EvReleaseNotes "No release notes available."]
  ∧ EvDialogExec ∈ r_trace r2
  ∧ r_out r2 = Normal tt.
Proof.
  split.
  - destruct (offer_of_a_bare_record sim_env TheMainWindow
                offer_without_version (prompt_state sunny)) as [H _].
    apply H. reflexivity.
  - destruct (offer_of_a_bare_record sim_env TheMainWindow
                offer_without_notes (prompt_state sunny)) as [_ H].
    apply H. reflexivity.
Defined.

(** [offer_null_notes]: the release notes are [None], and the box is
    empty; [offer_numeric_notes]: they are a number, and the toolkit
    refuses them. *)
Lemma release_notes_of_another_type_witness :
  let r1 :=
    show_update_dialog sim_env TheMainWindow offer_null_notes
      (prompt_state sunny) in
  let r2 :=
    show_update_dialog sim_env TheMainWindow offer_numeric_notes
      (prompt_state sunny) in
  (List.filter is_offer_text (r_trace r1) =
     [EvLabel "<h3>MK Processor 3.0.7 is available!</h3>";
      EvLabel "You are currently using version 3.0.6";
      EvLabel "<b>Release Notes:</b>";
      EvReleaseNotes EmptyString]
   ∧ EvDialogExec ∈ r_trace r1
   ∧ r_out r1 = Normal tt)
  ∧ (r_out r2 =
       Raise (TypeError (setPlainText_type_error sim_env (VInt 307)))
     ∧ List.filter is_update_activity (r_trace r2) = [EvDialog TheMainWindow]
     ∧ r_state r2 = prompt_state sunny).
Proof.
  split.
  - apply (release_notes_of_another_type sim_env TheMainWindow
             offer_null_notes VNone (prompt_state sunny)).
    + reflexivity.
    + intros s. discriminate.
  - apply (release_notes_of_another_type sim_env TheMainWindow
             offer_numeric_notes (VInt 307) (prompt_state sunny)).
    + reflexivity.
    + intros s. discriminate.
Defined.

(** [broken_install]: the module [update] is missing. *)
Lemma import_failure_report_witness :
  r_trace (python_main sim_env (0%nat, broken_install)) =
    [EvPrint "Error importing required modules: No module named 'update'";
     EvPrint (format_exc sim_env module_error);
     EvQApplication;
     EvCritical "Module Import Error"
       "Failed to import required modules: No module named 'update'"
       (format_exc sim_env module_error)].
Proof.
  apply (import_failure_report sim_env (0%nat, broken_install) tt
           module_error); reflexivity.
Defined.

(** [sunny] and [headless_crash]: one [QApplication] each. *)
Lemma one_qapplication_per_process_witness :
  List.filter is_qapplication (r_trace (python_main sim_env (0%nat, sunny)))
  = [EvQApplication]
  ∧ List.filter is_qapplication
      (r_trace (python_main sim_env (0%nat, headless_crash)))
    = [EvQApplication].
Proof.
  split.
  - apply (one_qapplication_per_process sim_env (0%nat, sunny) tt).
    reflexivity.
  - apply (one_qapplication_per_process sim_env (0%nat, headless_crash) tt).
    reflexivity.
Defined.

(** [headless_crash] ends in [sys.exit(1)], [exit_3] in [sys.exit(3)]. *)
Lemma process_ends_in_sys_exit_witness :
  r_out (python_main sim_env (0%nat, headless_crash)) = SysExit 1
  ∧ r_out (python_main sim_env (0%nat, exit_3)) = SysExit 3.
Proof.
  split.
  - apply (process_ends_in_sys_exit sim_env (0%nat, headless_crash) tt tt);
      reflexivity.
  - apply (process_ends_in_sys_exit sim_env (0%nat, exit_3) tt tt);
      reflexivity.
Defined.

(** [sunny]: every step happens, once. *)
Lemma update_client_is_used_at_most_once_witness :
  ∃ u1 u2 update_file,
    List.filter is_update_client (r_trace (main sim_env (boot (0%nat, sunny))))
    `prefix_of`
    [EvUpdater u1; EvCheck u1;
     EvUpdater u2; EvDownload u2; EvInstall u2 update_file].
Proof.
  apply (update_client_is_used_at_most_once sim_env (boot (0%nat, sunny))).
  reflexivity.
Defined.

(** [no_toolkit]: [PyQt5] is missing. *)
Lemma missing_toolkit_is_not_reported_witness :
  r_trace (python_main sim_env (0%nat, no_toolkit)) = []
  ∧ r_out (python_main sim_env (0%nat, no_toolkit)) = Raise toolkit_error.
Proof.
  apply (missing_toolkit_is_not_reported sim_env (0%nat, no_toolkit)
           toolkit_error).
  reflexivity.
Defined.

(** [download_fails]: the download raises, and no warning is shown. *)
Lemma start_update_catches_nothing_witness :
  let r := start_update sim_env TheMainWindow (prompt_state download_fails) in
  r_out r = Raise download_error
  ∧ List.filter is_warning (r_trace r) = [].
Proof.
  destruct (start_update_catches_nothing sim_env TheMainWindow
              (prompt_state download_fails) download_error) as [Hiff Hquiet].
  assert (r_out (start_update sim_env TheMainWindow
                   (prompt_state download_fails)) = Raise download_error)
    as Hout by (apply Hiff; left; reflexivity).
  split; [exact Hout | exact (Hquiet Hout)].
Defined.

(** [install_refused]: the install returns [False], and the warning is
    shown. *)
Lemma update_failed_warning_iff_witness :
  EvWarning (Some TheMainWindow) "Update Failed"
    "Failed to install the update. Please try again later."
  ∈ r_trace (start_update sim_env TheMainWindow (prompt_state install_refused)).
Proof.
  apply (update_failed_warning_iff sim_env TheMainWindow
           (prompt_state install_refused)).
  exists (VStr "/tmp/mk_update.zip"), (VBool false).
  repeat split; reflexivity.
Defined.


(** [install_fails], the whole run: the exception of the installer is
    handed to the hook, no warning is shown, the loop ends with 0. *)
Example install_fails_run :
  let r := main sim_env (boot (0%nat, install_fails)) in
  List.filter is_excepthook (r_trace r) = [EvExcepthook install_error]
  ∧ List.filter is_warning (r_trace r) = []
  ∧ r_out r = Normal 0.
Proof. by vm_compute. Qed.


(** [sunny]: the icon is there. *)
Lemma icon_is_set_only_when_the_file_exists_witness :
  List.filter is_icon (r_trace (main sim_env (boot (0%nat, sunny))))
  = [EvSetWindowIcon "/opt/mk/resources/icons/app_icon.png"].
Proof.
  apply (icon_is_set_only_when_the_file_exists sim_env (boot (0%nat, sunny))
           "/srv/web").
  reflexivity.
Defined.

(** [offline]: the manifest cannot be fetched. *)
Lemma failed_check_ends_main_before_the_loop_witness :
  let r := main sim_env (boot (0%nat, offline)) in
  r_out r = Raise connection_error
  ∧ last (r_trace r) = Some (EvCheck (check_updater sim_env (0%nat, offline)))
  ∧ List.filter is_shell (r_trace r) = [EvMainWindow; EvShow]
  ∧ List.filter is_event_loop (r_trace r) = [].
Proof.
  apply (failed_check_ends_main_before_the_loop sim_env
           (boot (0%nat, offline)) TheMainWindow connection_error);
    reflexivity.
Defined.
